(** * Boxing ring: a shallow embedding of [boxing/models] and its properties

    The development follows the two Python modules of the package:

    - [boxers_model.py]: the [Boxer] dataclass, [get_weight_class],
      [Boxer.create_boxer] and [update_boxer_stats];
    - [ring_model.py]: the [RingModel] class ([enter_ring], [clear_ring],
      [get_boxers], [get_fighting_skill], [fight]);
    - [api_utils.py] / [sql_utils.py]: [get_random] and [get_db_connection],
      whose outside world (random.org, the SQLite file, the C library's
      [pow]) is gathered in the record [world].

    Python [int] is [Z], Python [float] is the kernel's binary64 [float],
    a raised exception is the [Raise] branch of [outcome].  Calls to the
    [logging] module have no effect on any value computed here and are
    left out. *)

From Stdlib Require Import ZArith Lia List String Bool Floats Reals Lra.
From Stdlib Require Import Permutation Sorted.
Import ListNotations.

#[local] Set Warnings "-inexact-float".
#[local] Open Scope string_scope.
#[local] Open Scope Z_scope.

(** ** Python values and exceptions *)

(** [boxers_model.Boxer]: the fields of the dataclass, once [__post_init__]
    has run. *)
Record Boxer : Type := mkBoxer
  { id : Z;
    name : string;
    weight : Z;
    height : Z;
    reach : float;
    age : Z;
    weight_class : string }.

(** The dynamically typed objects that reach an [isinstance] test. *)
Inductive pyobj : Type :=
| PyInt (z : Z)
| PyBool (b : bool)
| PyFloat (f : float)
| PyStr (s : string)
| PyNone
| PyBoxer (b : Boxer).

(** [isinstance(o, int)]; [bool] is a subclass of [int]. *)
Definition isinstance_int (o : pyobj) : bool :=
  match o with
  | PyInt _ | PyBool _ => true
  | _ => false
  end.

(** The integer an [int] object stands for ([True] is 1, [False] is 0);
    only consulted after [isinstance_int] has answered [true]. *)
Definition int_value (o : pyobj) : Z :=
  match o with
  | PyInt z => z
  | PyBool b => Z.b2z b
  | _ => 0
  end.

(** [type(o).__name__] *)
Definition type_name (o : pyobj) : string :=
  match o with
  | PyInt _ => "int"
  | PyBool _ => "bool"
  | PyFloat _ => "float"
  | PyStr _ => "str"
  | PyNone => "NoneType"
  | PyBoxer _ => "Boxer"
  end.

(** An f-string, kept as its literal parts and the values substituted. *)
Inductive piece : Type :=
| Lit (s : string)
| Obj (o : pyobj).

Definition message : Type := list piece.

Inductive exn : Type :=
| ValueError (m : message)
| TypeError (m : message)
| RuntimeError (m : message)
| OverflowError (m : message)
| ZeroDivisionError (m : message)
| sqlite3_Error (m : message)
| sqlite3_IntegrityError (m : message).

(** [except sqlite3.Error]: [IntegrityError] is one of its subclasses. *)
Definition is_sqlite3_Error (e : exn) : bool :=
  match e with
  | sqlite3_Error _ | sqlite3_IntegrityError _ => true
  | _ => false
  end.

(** What a call yields: the returned value or the exception raised. *)
Inductive outcome (A : Type) : Type :=
| Return (a : A)
| Raise (e : exn).
Arguments Return {A} a.
Arguments Raise {A} e.

Definition obind {A B : Type} (c : outcome A) (k : A -> outcome B) : outcome B :=
  match c with
  | Return a => k a
  | Raise e => Raise e
  end.

Definition raised {A : Type} (c : outcome A) : bool :=
  match c with
  | Return _ => false
  | Raise _ => true
  end.

(** Code that reads and writes a state [S] and may raise. *)
Definition M (S A : Type) : Type := S -> outcome A * S.

Definition ret {S A : Type} (a : A) : M S A := fun s => (Return a, s).
Definition raise {S A : Type} (e : exn) : M S A := fun s => (Raise e, s).
Definition bind {S A B : Type} (c : M S A) (k : A -> M S B) : M S B :=
  fun s =>
    match c s with
    | (Return a, s') => k a s'
    | (Raise e, s') => (Raise e, s')
    end.
Definition pure {S A : Type} (c : outcome A) : M S A := fun s => (c, s).
Definition get {S : Type} : M S S := fun s => (Return s, s).
Definition put {S : Type} (s : S) : M S unit := fun _ => (Return tt, s).

Declare Scope py_scope.
Delimit Scope py_scope with py.
Notation "x <- c ;; k" := (bind c (fun x => k))
  (at level 61, c at next level, right associativity) : py_scope.
Notation "c ;;; k" := (bind c (fun _ => k))
  (at level 61, right associativity) : py_scope.
Notation "x <~ c ;; k" := (obind c (fun x => k))
  (at level 61, c at next level, right associativity) : py_scope.
#[local] Open Scope py_scope.

(** ** boxers_model.py: weight classes and the dataclass constructor *)

Definition get_weight_class (weight : pyobj) : outcome string :=
  if negb (isinstance_int weight) || (int_value weight <? 0) then
    Raise (ValueError [Lit "Invalid Weight: "; Obj weight;
                       Lit ". Must be a non-negative integer."])
  else if int_value weight >=? 203 then Return "HEAVYWEIGHT"
  else if int_value weight >=? 166 then Return "MIDDLEWEIGHT"
  else if int_value weight >=? 133 then Return "LIGHTWEIGHT"
  else if int_value weight >=? 125 then Return "FEATHERWEIGHT"
  else
    Raise (ValueError [Lit "Invalid weight: "; Obj weight;
                       Lit ". Weight must be at least 125."]).

(** [Boxer(id, name, weight, height, reach, age, weight_class)]: the
    generated [__init__] stores the arguments and [__post_init__] overwrites
    [weight_class]; an exception of [get_weight_class] leaves no object. *)
Definition Boxer_init (id : Z) (name : string) (weight : pyobj) (height : Z)
    (reach : float) (age : Z) (weight_class : option string) : outcome Boxer :=
  wc <~ get_weight_class weight ;;
  Return (mkBoxer id name (int_value weight) height reach age wc).

(** What [__post_init__] guarantees of a [Boxer] object. *)
Definition classified (b : Boxer) : Prop :=
  125 <= weight b /\
  get_weight_class (PyInt (weight b)) = Return (weight_class b).

(** The order of the four bands, lightest first. *)
Definition band (weight_class : string) : nat :=
  if String.eqb weight_class "HEAVYWEIGHT" then 3
  else if String.eqb weight_class "MIDDLEWEIGHT" then 2
  else if String.eqb weight_class "LIGHTWEIGHT" then 1
  else 0.

(** ** The outside world *)

(** A row of the [boxers] table. *)
Record row : Type := mkRow
  { row_id : Z;
    row_name : string;
    row_weight : Z;
    row_height : Z;
    row_reach : float;
    row_age : Z;
    row_fights : Z;
    row_wins : Z }.

Inductive sqlite_error : Type :=
| Sq_Error (m : string)
| Sq_IntegrityError (m : string).

Definition exn_of_sqlite (e : sqlite_error) : exn :=
  match e with
  | Sq_Error m => sqlite3_Error [Lit m]
  | Sq_IntegrityError m => sqlite3_IntegrityError [Lit m]
  end.

(** What [requests.get] and [raise_for_status] make of one request:
    a body (already stripped) with what [float()] reads in it, if anything,
    a timeout, or another [RequestException]. *)
Inductive http_response : Type :=
| HttpOk (text : string) (parsed : option float)
| HttpTimeout
| HttpFailed (e : string).

(** Everything the package reaches outside of its own objects.
    [db_calls] and [http_calls] count the calls made so far to the sqlite3
    module and to random.org; [sqlite_raises n] says whether the [n]-th
    sqlite3 call raises, [random_org n] what the [n]-th request returns.
    [libm_pow] is the C library's [pow], which [float.__pow__] calls. *)
Record world : Type := mkWorld
  { boxers : list row;
    db_calls : nat;
    sqlite_raises : nat -> option sqlite_error;
    http_calls : nat;
    random_org : nat -> http_response;
    libm_pow : float -> float -> float }.

Definition set_boxers (t : list row) (w : world) : world :=
  mkWorld t (db_calls w) (sqlite_raises w) (http_calls w) (random_org w)
          (libm_pow w).

Definition tick_db (w : world) : world :=
  mkWorld (boxers w) (S (db_calls w)) (sqlite_raises w) (http_calls w)
          (random_org w) (libm_pow w).

Definition tick_http (w : world) : world :=
  mkWorld (boxers w) (db_calls w) (sqlite_raises w) (S (http_calls w))
          (random_org w) (libm_pow w).

(** One call into the sqlite3 module ([connect], [execute], [commit]). *)
Definition sqlite3_call : M world unit :=
  fun w =>
    match sqlite_raises w (db_calls w) with
    | Some e => (Raise (exn_of_sqlite e), tick_db w)
    | None => (Return tt, tick_db w)
    end.

(** [with get_db_connection() as conn: body]: the connection is opened,
    the body runs, and the connection is closed on every path; an exception
    of either is raised again unchanged. *)
Definition get_db_connection {A : Type} (body : M world A) : M world A :=
  sqlite3_call ;;; body.

(** [cursor.execute("SELECT ... WHERE ...")] followed by [fetchone()]. *)
Definition select_one (p : row -> bool) : M world (option row) :=
  sqlite3_call ;;; w <- get ;; ret (find p (boxers w)).

(** [cursor.execute] of a statement that changes the table: the change
    is pending until [commit]. *)
Definition execute (change : list row -> list row) : M world (list row) :=
  sqlite3_call ;;; w <- get ;; ret (change (boxers w)).

(** [conn.commit()] *)
Definition commit (pending : list row) : M world unit :=
  sqlite3_call ;;; w <- get ;; put (set_boxers pending w).

(** [try: c  except E as e: handler e], for the exceptions [E] selects. *)
Definition try_except {S A : Type} (c : M S A) (E : exn -> bool)
    (handler : exn -> M S A) : M S A :=
  fun s =>
    match c s with
    | (Raise e, s') => if E e then handler e s' else (Raise e, s')
    | r => r
    end.

(** *** api_utils.py *)

Definition get_random : M world float :=
  fun w =>
    match random_org w (http_calls w) with
    | HttpOk text (Some random_number) => (Return random_number, tick_http w)
    | HttpOk text None =>
        (Raise (ValueError [Lit "Invalid response from random.org: ";
                            Obj (PyStr text)]), tick_http w)
    | HttpTimeout =>
        (Raise (RuntimeError [Lit "Request to random.org timed out."]),
         tick_http w)
    | HttpFailed e =>
        (Raise (RuntimeError [Lit "Request to random.org failed: "; Lit e]),
         tick_http w)
    end.

(** *** boxers_model.py: the functions that reach the database *)

(** Modelled from the spec: the schema of the [boxers] table is not among
    the sources.  A new record gets an identity of its own and its
    [fights] and [wins] counters, which live only in the repository, start
    at zero. *)
Definition insert_boxer (name : string) (weight height : Z) (reach : float)
    (age : Z) (t : list row) : list row :=
  t ++ [mkRow (1 + fold_right Z.max 0 (map row_id t))
              name weight height reach age 0 0].

(** [Boxer.create_boxer]; the arguments have the types of its signature. *)
Definition create_boxer (name : string) (weight height : Z) (reach : float)
    (age : Z) : M world unit :=
  if weight <? 125 then
    raise (ValueError [Lit "Invalid weight: "; Obj (PyInt weight);
                       Lit ". Must be at least 125."])
  else if height <=? 0 then
    raise (ValueError [Lit "Invalid height: "; Obj (PyInt height);
                       Lit ". Must be greater than 0."])
  else if (reach <=? 0)%float then
    raise (ValueError [Lit "Invalid reach: "; Obj (PyFloat reach);
                       Lit ". Must be greater than 0."])
  else if negb ((18 <=? age) && (age <=? 40)) then
    raise (ValueError [Lit "Invalid age: "; Obj (PyInt age);
                       Lit ". Must be between 18 and 40."])
  else
    try_except
      (get_db_connection
         (existing <- select_one (fun r => String.eqb (row_name r) name) ;;
          match existing with
          | Some _ =>
              raise (ValueError [Lit "Boxer With name '"; Obj (PyStr name);
                                 Lit "' already exists"])
          | None =>
              pending <- execute (insert_boxer name weight height reach age) ;;
              commit pending
          end))
      (fun e => match e with sqlite3_IntegrityError _ => true | _ => false end)
      (fun _ => raise (ValueError [Lit "Boxer With Name '"; Obj (PyStr name);
                                   Lit "' already exists"])).

(** The two [UPDATE] statements of [update_boxer_stats], on one row. *)
Definition record_result (boxer_id : Z) (result : string) (r : row) : row :=
  if row_id r =? boxer_id then
    if String.eqb result "win" then
      mkRow (row_id r) (row_name r) (row_weight r) (row_height r)
            (row_reach r) (row_age r) (row_fights r + 1) (row_wins r + 1)
    else
      mkRow (row_id r) (row_name r) (row_weight r) (row_height r)
            (row_reach r) (row_age r) (row_fights r + 1) (row_wins r)
  else r.

(** [fight] passes an [int] and a [str], for which the two [isinstance]
    tests hold; the tests on their values remain. *)
Definition update_boxer_stats (boxer_id : Z) (result : string) : M world unit :=
  if negb (String.eqb result "win" || String.eqb result "loss") then
    raise (ValueError [Lit "Invalid result: "; Obj (PyStr result);
                       Lit ". Expected 'win' or 'loss'."])
  else if boxer_id <? 0 then
    raise (ValueError [Lit "Invalid boxer ID: "; Obj (PyInt boxer_id);
                       Lit ". Must be a non-negative integer."])
  else
    get_db_connection
      (found <- select_one (fun r => row_id r =? boxer_id) ;;
       match found with
       | None =>
           raise (ValueError [Lit "Boxer with ID "; Obj (PyInt boxer_id);
                              Lit " not found."])
       | Some _ =>
           pending <- execute (map (record_result boxer_id result)) ;;
           commit pending
       end).

(** ** Python arithmetic on [float] *)

#[local] Open Scope float_scope.

(** [math.e] *)
Definition math_e : float := 2.718281828459045.

(** [float(z)] for an [int] operand of a mixed operation: the nearest
    double, ties to even, and [OverflowError] when that is not finite. *)
Definition float_of_int (z : Z) : outcome float :=
  let x := SF2Prim (binary_normalize prec emax z 0%Z false) in
  if is_infinity x then
    Raise (OverflowError [Lit "int too large to convert to float"])
  else Return x.

(** [a / b] on floats *)
Definition float_truediv (a b : float) : outcome float :=
  if b =? 0 then Raise (ZeroDivisionError [Lit "float division by zero"])
  else Return (a / b).

(** [math.e ** iw], as [float.__pow__] computes it: an exponent that is
    zero, nan or infinite is decided before the C library is asked (the
    base [math.e] is finite, positive and not 1, so none of the cases on
    the base applies), and an infinite result of [pow] is a range error.
    Of the C library only the value [pow] returns is kept. *)
Definition pow_math_e (pow : float -> float -> float) (iw : float)
  : outcome float :=
  if iw =? 0 then Return 1
  else if is_nan iw then Return iw
  else if is_infinity iw then
    if Bool.eqb (0 <? iw) (1 <? abs math_e) then Return (abs iw)
    else Return 0
  else
    let ix := pow math_e iw in
    if is_infinity ix then
      Raise (OverflowError [Lit "(34, 'Numerical result out of range')"])
    else Return ix.

(** [1 / (1 + math.e ** (-delta))] *)
Definition normalized_delta (pow : float -> float -> float) (delta : float)
  : outcome float :=
  x <~ pow_math_e pow (- delta) ;;
  one <~ float_of_int 1 ;;
  float_truediv one (one + x).

(** ** ring_model.py *)

Definition age_modifier (boxer : Boxer) : Z :=
  (if age boxer <? 25 then -1 else if age boxer >? 35 then -2 else 0)%Z.

Definition get_fighting_skill (boxer : Boxer) : outcome float :=
  base <~ float_of_int (weight boxer * Z.of_nat (String.length (name boxer))) ;;
  ten <~ float_of_int 10 ;;
  tenth <~ float_truediv (reach boxer) ten ;;
  modifier <~ float_of_int (age_modifier boxer) ;;
  Return (base + tenth + modifier).

Record RingModel : Type := mkRingModel { ring : list Boxer }.

(** [RingModel()] *)
Definition RingModel_init : RingModel := mkRingModel [].

(** A method runs on [self] and on the world. *)
Definition method (A : Type) : Type := M (RingModel * world) A.

Definition self_ring : method (list Boxer) :=
  fun s => (Return (ring (fst s)), s).

Definition set_self_ring (l : list Boxer) : method unit :=
  fun s => (Return tt, (mkRingModel l, snd s)).

Definition in_world {A : Type} (c : M world A) : method A :=
  fun s => let (r, w) := c (snd s) in (r, (fst s, w)).

Definition clear_ring : method unit :=
  r <- self_ring ;;
  match r with
  | [] => ret tt
  | _ => set_self_ring []
  end.

Definition enter_ring (boxer : pyobj) : method unit :=
  match boxer with
  | PyBoxer b =>
      r <- self_ring ;;
      if (2 <=? List.length r)%nat then
        raise (ValueError [Lit "Ring is full, cannot add more boxers."])
      else set_self_ring (r ++ [b])
  | _ =>
      raise (TypeError [Lit "Invalid type: Expected 'Boxer', got '";
                        Lit (type_name boxer); Lit "'"])
  end.

Definition get_boxers : method (list Boxer) := self_ring.

Definition fight : method string :=
  r <- self_ring ;;
  if (List.length r <? 2)%nat then
    raise (ValueError [Lit "There must be two boxers to start a fight."])
  else
    both <- get_boxers ;;
    match both with
    | [boxer_1; boxer_2] =>
        skill_1 <- pure (get_fighting_skill boxer_1) ;;
        skill_2 <- pure (get_fighting_skill boxer_2) ;;
        let delta := abs (skill_1 - skill_2) in
        pow <- in_world (w <- get ;; ret (libm_pow w)) ;;
        p <- pure (normalized_delta pow delta) ;;
        random_number <- in_world get_random ;;
        let (winner, loser) :=
          if random_number <? p then (boxer_1, boxer_2)
          else (boxer_2, boxer_1) in
        in_world (update_boxer_stats (id winner) "win") ;;;
        in_world (update_boxer_stats (id loser) "loss") ;;;
        clear_ring ;;;
        ret (name winner)
    | _ => raise (ValueError [Lit "too many values to unpack (expected 2)"])
    end.

(** [get_boxer_by_id] and [get_boxer_by_name]: the row found is handed to
    the constructor, without a [weight_class]. *)
Definition get_boxer_by_id (boxer_id : Z) : M world Boxer :=
  if (boxer_id <? 0)%Z then
    raise (ValueError [Lit "Invalid boxer ID: "; Obj (PyInt boxer_id);
                       Lit ". Must be a non-negative integer."])
  else
    get_db_connection
      (found <- select_one (fun r => (row_id r =? boxer_id)%Z) ;;
       match found with
       | Some r =>
           pure (Boxer_init (row_id r) (row_name r) (PyInt (row_weight r))
                            (row_height r) (row_reach r) (row_age r) None)
       | None =>
           raise (ValueError [Lit "Boxer with ID "; Obj (PyInt boxer_id);
                              Lit " not found."])
       end).

Definition get_boxer_by_name (boxer_name : string) : M world Boxer :=
  if String.eqb boxer_name "" then
    raise (ValueError [Lit "Invalid boxer name: "; Obj (PyStr boxer_name);
                       Lit ". Must be a non-empty string."])
  else
    get_db_connection
      (found <- select_one (fun r => String.eqb (row_name r) boxer_name) ;;
       match found with
       | Some r =>
           pure (Boxer_init (row_id r) (row_name r) (PyInt (row_weight r))
                            (row_height r) (row_reach r) (row_age r) None)
       | None =>
           raise (ValueError [Lit "Boxer '"; Obj (PyStr boxer_name);
                              Lit "' not found."])
       end).

(** ** Sequences of calls, and the logistic curve over the reals *)

(** The calls a client can make on a ring. *)
Inductive call : Type :=
| Enter (o : pyobj)
| Clear
| Fight
| GetBoxers.

(** The state a call leaves behind, whether it returned or raised. *)
Definition after {A : Type} (c : method A) (s : RingModel * world)
  : RingModel * world := snd (c s).

Definition run_call (c : call) : RingModel * world -> RingModel * world :=
  match c with
  | Enter o => after (enter_ring o)
  | Clear => after clear_ring
  | Fight => after fight
  | GetBoxers => after get_boxers
  end.

Definition run_calls (cs : list call) (s : RingModel * world)
  : RingModel * world :=
  fold_left (fun s c => run_call c s) cs s.


(** ** Sample boxers and worlds *)

Definition sample_boxer1 : Boxer := mkBoxer 1 "Boxer1" 160 70 72 25 "LIGHTWEIGHT".
Definition sample_boxer2 : Boxer := mkBoxer 2 "Boxer2" 165 72 74 30 "LIGHTWEIGHT".

(** Two boxers whose reach is [float('inf')], and one of finite reach. *)
Definition endless_boxer1 : Boxer :=
  mkBoxer 3 "Atlas" 160 70 infinity 25 "LIGHTWEIGHT".

Definition row_of (b : Boxer) : row :=
  mkRow (id b) (name b) (weight b) (height b) (reach b) (age b) 0 0.

(** The ring once both sample boxers have entered it. *)
Definition full_ring : RingModel := mkRingModel [sample_boxer1; sample_boxer2].

(** [pow(math.e, -30.199999999999932)], the one point at which the sample
    fight between [sample_boxer1] and [sample_boxer2] calls the C library. *)
Definition sample_pow : float -> float -> float :=
  fun _ _ => 0x1.59099ffc013e9p-44.

(** A world whose table holds the given boxers, whose database never
    fails and where random.org always answers [0.5]. *)
Definition sample_world (table : list Boxer) : world :=
  mkWorld (map row_of table) 0 (fun _ => None) 0
          (fun _ => HttpOk "0.5" (Some 0.5)) sample_pow.

#[local] Close Scope float_scope.

(** ** boxers_model.py: deleting a boxer and the leaderboard *)

(** [delete_boxer(self, boxer_id)]: a function of the module whose first
    parameter is never used. *)
Definition delete_boxer (self : pyobj) (boxer_id : Z) : M world unit :=
  if boxer_id <? 0 then
    raise (ValueError [Lit "Invalid Boxer ID: "; Obj (PyInt boxer_id);
                       Lit ". Must be a non-negative integer."])
  else
    get_db_connection
      (found <- select_one (fun r => row_id r =? boxer_id) ;;
       match found with
       | None =>
           raise (ValueError [Lit "Boxer with ID "; Obj (PyInt boxer_id);
                              Lit " not found."])
       | Some _ =>
           pending <- execute (filter (fun r => negb (row_id r =? boxer_id))) ;;
           commit pending
       end).

(** One dictionary of the list [get_leaderboard] returns, by its keys. *)
Record leaderboard_entry : Type := mkEntry
  { entry_id : Z;
    entry_name : string;
    entry_weight : Z;
    entry_height : Z;
    entry_reach : float;
    entry_age : Z;
    entry_weight_class : string;
    entry_fights : Z;
    entry_wins : Z;
    entry_win_pct : float }.

(** SQLite's reading of an INTEGER as a REAL: the nearest double. *)
Definition sqlite_real (z : Z) : float :=
  SF2Prim (binary_normalize prec emax z 0 false).

(** The column [(wins * 1.0 / fights) AS win_pct] of the query. *)
Definition win_pct (r : row) : float :=
  (sqlite_real (row_wins r) * 1 / sqlite_real (row_fights r))%float.

(** [WHERE fights > 0] *)
Definition has_fought (r : row) : bool := 0 <? row_fights r.

(** [ORDER BY win_pct DESC] and [ORDER BY wins DESC]: whether row [a] has
    to come before row [b]. *)
Definition comes_before (sort_by : string) (a b : row) : bool :=
  if String.eqb sort_by "win_pct" then (win_pct b <? win_pct a)%float
  else row_wins b <? row_wins a.

(** The loop over the rows fetched: one dictionary per row, in order; an
    exception of [get_weight_class] ends the loop and the call. *)
Fixpoint leaderboard_of (builtin_round : float -> Z -> float)
    (rows : list row) : outcome (list leaderboard_entry) :=
  match rows with
  | [] => Return []
  | r :: rest =>
      wc <~ get_weight_class (PyInt (row_weight r)) ;;
      hundred <~ float_of_int 100 ;;
      leaderboard <~ leaderboard_of builtin_round rest ;;
      Return (mkEntry (row_id r) (row_name r) (row_weight r) (row_height r)
                      (row_reach r) (row_age r) wc (row_fights r) (row_wins r)
                      (builtin_round (win_pct r * hundred)%float 1)
              :: leaderboard)
  end.

(** [get_leaderboard(self, sort_by)].  [order_by] is SQLite's sorter, given
    the order asked for and the rows selected; [builtin_round] is Python's
    [round(x, ndigits)]. *)
Definition get_leaderboard
    (order_by : (row -> row -> bool) -> list row -> list row)
    (builtin_round : float -> Z -> float)
    (self : pyobj) (sort_by : string) : M world (list leaderboard_entry) :=
  if negb (String.eqb sort_by "wins" || String.eqb sort_by "win_pct") then
    raise (ValueError [Lit "Invalid sort_by paramater: "; Obj (PyStr sort_by)])
  else
    rows <- get_db_connection
              (sqlite3_call ;;;
               w <- get ;;
               ret (order_by (comes_before sort_by)
                             (filter has_fought (boxers w)))) ;;
    pure (leaderboard_of builtin_round rows).

(** ** Requests of a client, on the ring and on the repository *)

Inductive request : Type :=
| OnRing (c : call)
| CreateBoxer (name : string) (weight height : Z) (reach : float) (age : Z)
| DeleteBoxer (boxer_id : Z)
| UpdateStats (boxer_id : Z) (result : string)
| GetById (boxer_id : Z)
| GetByName (boxer_name : string).

Definition serve (q : request) (s : RingModel * world) : RingModel * world :=
  match q with
  | OnRing c => run_call c s
  | CreateBoxer n wt h r a => after (in_world (create_boxer n wt h r a)) s
  | DeleteBoxer i => after (in_world (delete_boxer PyNone i)) s
  | UpdateStats i res => after (in_world (update_boxer_stats i res)) s
  | GetById i => after (in_world (get_boxer_by_id i)) s
  | GetByName n => after (in_world (get_boxer_by_name n)) s
  end.

Definition serve_all (qs : list request) (s : RingModel * world)
  : RingModel * world :=
  fold_left (fun s q => serve q s) qs s.

(** A row as [create_boxer] lets it in. *)
Definition admissible (r : row) : Prop :=
  125 <= row_weight r /\ 0 < row_height r /\
  (row_reach r <=? 0)%float = false /\ 18 <= row_age r <= 40.

(** The counters of a row: no more wins than fights. *)
Definition plausible (r : row) : Prop := 0 <= row_wins r <= row_fights r.

(** A simple sorter: each row is put in front of the first row it has to
    come before. *)
Fixpoint place (before : row -> row -> bool) (x : row) (l : list row)
  : list row :=
  match l with
  | [] => [x]
  | y :: l' => if before x y then x :: y :: l' else y :: place before x l'
  end.

Definition sample_order_by (before : row -> row -> bool) (l : list row)
  : list row :=
  fold_right (place before) [] l.

(** How one call can change the table: not at all, by recording a result,
    by deleting the rows of an identity that is there, or by appending a
    row that passed the checks of [create_boxer] under a new name. *)
Inductive table_step (t : list row) : list row -> Prop :=
| step_same : table_step t t
| step_record (boxer_id : Z) (result : string) :
    table_step t (map (record_result boxer_id result) t)
| step_delete (boxer_id : Z) :
    (exists r, In r t /\ row_id r = boxer_id) ->
    table_step t (filter (fun r => negb (row_id r =? boxer_id)) t)
| step_insert (n : string) (wt h : Z) (r : float) (a : Z) :
    125 <= wt -> 0 < h -> (r <=? 0)%float = false -> 18 <= a <= 40 ->
    find (fun x => String.eqb (row_name x) n) t = None ->
    table_step t (insert_boxer n wt h r a t).

(** How an entry of the leaderboard reads its row. *)
Definition entry_of_row (builtin_round : float -> Z -> float) (r : row)
    (e : leaderboard_entry) : Prop :=
  entry_id e = row_id r /\ entry_name e = row_name r /\
  entry_weight e = row_weight r /\ entry_height e = row_height r /\
  entry_reach e = row_reach r /\ entry_age e = row_age r /\
  entry_fights e = row_fights r /\ entry_wins e = row_wins r /\
  get_weight_class (PyInt (row_weight r)) = Return (entry_weight_class e) /\
  entry_win_pct e = builtin_round (win_pct r * 100)%float 1.

(** The quotient by which [ORDER BY win_pct] compares, read off an entry. *)
Definition entry_ratio (e : leaderboard_entry) : float :=
  (sqlite_real (entry_wins e) * 1 / sqlite_real (entry_fights e))%float.

(** What a fight that returned did to a row: one fight more for each of
    the two boxers, one win more for the winner, the rest as it was. *)
Definition fought (winner loser : Boxer) (r r' : row) : Prop :=
  row_id r' = row_id r /\ row_name r' = row_name r /\
  row_weight r' = row_weight r /\ row_height r' = row_height r /\
  row_reach r' = row_reach r /\ row_age r' = row_age r /\
  row_fights r' =
    row_fights r + Z.b2z (row_id r =? id winner)
    + Z.b2z (row_id r =? id loser) /\
  row_wins r' = row_wins r + Z.b2z (row_id r =? id winner).

(** What [update_boxer_stats] that returned did to a row. *)
Definition updated (boxer_id : Z) (result : string) (r r' : row) : Prop :=
  row_id r' = row_id r /\ row_name r' = row_name r /\
  row_weight r' = row_weight r /\ row_height r' = row_height r /\
  row_reach r' = row_reach r /\ row_age r' = row_age r /\
  row_fights r' = row_fights r + Z.b2z (row_id r =? boxer_id) /\
  row_wins r' =
    row_wins r
    + (if String.eqb result "win" then Z.b2z (row_id r =? boxer_id) else 0).

(** A world in which random.org does not answer in time. *)
Definition silent_world (table : list Boxer) : world :=
  mkWorld (map row_of table) 0 (fun _ => None) 0 (fun _ => HttpTimeout)
          sample_pow.

(** A table of three boxers, and the world after two of them, the sample
    boxers, have fought once. *)
Definition league : list Boxer :=
  [sample_boxer2; endless_boxer1; sample_boxer1].

Definition world_after_fight : world :=
  snd (after fight (full_ring, sample_world league)).

(** A world whose table holds a row that no [create_boxer] lets in: a
    boxer of 100 pounds, with a fight on record. *)
Definition underweight_world : world :=
  mkWorld [mkRow 9 "Tiny" 100 60 60 20 1 0] 0 (fun _ => None) 0
          (fun _ => HttpOk "0.5" (Some 0.5%float)) sample_pow.

(** A stand-in for [round] in the examples: it hands its argument back. *)
Definition no_rounding : float -> Z -> float := fun x _ => x.

(** The leaderboard by wins of [world_after_fight], with the sample
    sorter. *)
Definition sample_leaderboard : list leaderboard_entry :=
  match fst (get_leaderboard sample_order_by no_rounding PyNone "wins"
                             world_after_fight) with
  | Return l => l
  | Raise _ => []
  end.

(** * Properties *)

(** ** Weight classes *)

Ltac by_thresholds :=
  repeat match goal with
    | |- context [(?a >=? ?b)%Z] => rewrite (Z.geb_leb a b)
    | |- context [(?a <? ?b)%Z] => destruct (Z.ltb_spec a b); try lia
    | |- context [(?a <=? ?b)%Z] => destruct (Z.leb_spec a b); try lia
    | H : context [(?a >=? ?b)%Z] |- _ => rewrite (Z.geb_leb a b) in H
    | H : context [(?a <? ?b)%Z] |- _ => destruct (Z.ltb_spec a b); try lia
    | H : context [(?a <=? ?b)%Z] |- _ => destruct (Z.leb_spec a b); try lia
    end.

Lemma get_weight_class_int (w : Z) :
  get_weight_class (PyInt w) =
    if (w <? 0)%Z then
      Raise (ValueError [Lit "Invalid Weight: "; Obj (PyInt w);
                         Lit ". Must be a non-negative integer."])
    else if (203 <=? w)%Z then Return "HEAVYWEIGHT"
    else if (166 <=? w)%Z then Return "MIDDLEWEIGHT"
    else if (133 <=? w)%Z then Return "LIGHTWEIGHT"
    else if (125 <=? w)%Z then Return "FEATHERWEIGHT"
    else Raise (ValueError [Lit "Invalid weight: "; Obj (PyInt w);
                            Lit ". Weight must be at least 125."]).
Proof.
  unfold get_weight_class; cbn [isinstance_int int_value negb orb].
  now rewrite !Z.geb_leb.
Qed.

(** A weight class is returned exactly for the integers from 125 on. *)
Lemma get_weight_class_returns (o : pyobj) (c : string) :
  get_weight_class o = Return c ->
  isinstance_int o = true /\ 125 <= int_value o.
Proof.
  unfold get_weight_class.
  destruct (isinstance_int o); cbn [negb orb]; [|discriminate].
  intros H; split; [reflexivity|].
  by_thresholds; discriminate.
Qed.

Lemma get_weight_class_total (o : pyobj) :
  isinstance_int o = true -> 125 <= int_value o ->
  exists c, get_weight_class o = Return c.
Proof.
  unfold get_weight_class; intros -> Hw; cbn [negb orb].
  by_thresholds; eauto.
Qed.

Lemma get_weight_class_by_value (o : pyobj) :
  isinstance_int o = true ->
  raised (get_weight_class o) = raised (get_weight_class (PyInt (int_value o)))
  /\ forall c, get_weight_class o = Return c ->
               get_weight_class (PyInt (int_value o)) = Return c.
Proof.
  unfold get_weight_class; intros ->; cbn [isinstance_int int_value negb orb].
  split; [|intros c]; by_thresholds; try reflexivity; try discriminate; auto.
Qed.

(** C3: on integers [get_weight_class] raises [ValueError] below 0 and below
    125, returns the class of the first threshold reached from 203, 166,
    133, 125 downwards, and never moves to a lighter band when the weight
    grows. *)
Theorem get_weight_class_bands (w : Z) :
  (w < 0 ->
   get_weight_class (PyInt w) =
     Raise (ValueError [Lit "Invalid Weight: "; Obj (PyInt w);
                        Lit ". Must be a non-negative integer."])) /\
  (0 <= w < 125 ->
   get_weight_class (PyInt w) =
     Raise (ValueError [Lit "Invalid weight: "; Obj (PyInt w);
                        Lit ". Weight must be at least 125."])) /\
  (203 <= w -> get_weight_class (PyInt w) = Return "HEAVYWEIGHT") /\
  (166 <= w < 203 -> get_weight_class (PyInt w) = Return "MIDDLEWEIGHT") /\
  (133 <= w < 166 -> get_weight_class (PyInt w) = Return "LIGHTWEIGHT") /\
  (125 <= w < 133 -> get_weight_class (PyInt w) = Return "FEATHERWEIGHT") /\
  (forall (w' : Z) (c c' : string),
      w <= w' ->
      get_weight_class (PyInt w) = Return c ->
      get_weight_class (PyInt w') = Return c' ->
      (band c <= band c')%nat).
Proof.
  repeat split; try (intros; rewrite get_weight_class_int; by_thresholds;
                     reflexivity).
  intros w' c c' Hle; rewrite !get_weight_class_int.
  by_thresholds; intros Hc Hc';
    try discriminate; injection Hc as <-; injection Hc' as <-;
    cbn; lia.
Qed.

Lemma get_weight_class_bands_witness :
  get_weight_class (PyInt (-1)) =
    Raise (ValueError [Lit "Invalid Weight: "; Obj (PyInt (-1));
                       Lit ". Must be a non-negative integer."]) /\
  get_weight_class (PyInt 124) =
    Raise (ValueError [Lit "Invalid weight: "; Obj (PyInt 124);
                       Lit ". Weight must be at least 125."]) /\
  get_weight_class (PyInt 125) = Return "FEATHERWEIGHT" /\
  get_weight_class (PyInt 165) = Return "LIGHTWEIGHT" /\
  get_weight_class (PyInt 166) = Return "MIDDLEWEIGHT" /\
  get_weight_class (PyInt 203) = Return "HEAVYWEIGHT" /\
  (band "LIGHTWEIGHT" <= band "HEAVYWEIGHT")%nat.
Proof.
  pose proof (get_weight_class_bands (-1)) as [H1 _].
  pose proof (get_weight_class_bands 124) as (_ & H2 & _).
  pose proof (get_weight_class_bands 125) as (_ & _ & _ & _ & _ & H3 & _).
  pose proof (get_weight_class_bands 165) as (_ & _ & _ & _ & H4 & _ & H7).
  pose proof (get_weight_class_bands 166) as (_ & _ & _ & H5 & _).
  pose proof (get_weight_class_bands 203) as (_ & _ & H6 & _).
  split; [apply H1; lia|].
  split; [apply H2; lia|].
  split; [apply H3; lia|].
  split; [apply H4; lia|].
  split; [apply H5; lia|].
  split; [apply H6; lia|].
  apply (H7 203 "LIGHTWEIGHT" "HEAVYWEIGHT"); [lia | reflexivity | reflexivity].
Defined.

(** ** The dataclass constructor *)

Lemma Boxer_init_returns (i : Z) (n : string) (wt : pyobj) (h : Z)
    (r : float) (a : Z) (wc : option string) (b : Boxer) :
  Boxer_init i n wt h r a wc = Return b ->
  isinstance_int wt = true /\ weight b = int_value wt /\ classified b.
Proof.
  unfold Boxer_init, obind.
  destruct (get_weight_class wt) as [c|e] eqn:Hc; [|discriminate].
  intros [= <-]; cbn [weight weight_class].
  destruct (get_weight_class_returns _ _ Hc) as [Hint Hw].
  repeat split; auto.
  now apply get_weight_class_by_value.
Qed.

Lemma materialized_classified (found : option row) (b : Boxer) (e : exn)
    (w w' : world) :
  match found with
  | Some r =>
      pure (Boxer_init (row_id r) (row_name r) (PyInt (row_weight r))
                       (row_height r) (row_reach r) (row_age r) None)
  | None => raise e
  end w = (Return b, w') ->
  classified b.
Proof.
  destruct found as [r|]; unfold pure, raise; [|discriminate].
  intros [= H _]. now apply Boxer_init_returns in H.
Qed.

(** C10: a [Boxer] object exists only with an integer weight of at least
    125 and with the weight class [get_weight_class] gives for that weight,
    whatever [weight_class] argument was passed; this holds for the
    objects [get_boxer_by_id] and [get_boxer_by_name] build, and a weight
    that is not an integer, or is below 125, leaves no object. *)
Theorem Boxer_weight_class_invariant :
  (forall i n wt h r a wc b,
      Boxer_init i n wt h r a wc = Return b ->
      isinstance_int wt = true /\ weight b = int_value wt /\ classified b) /\
  (forall i n wt h r a wc,
      isinstance_int wt = false \/ int_value wt < 125 ->
      exists m, Boxer_init i n wt h r a wc = Raise (ValueError m)) /\
  (forall i n wt h r a wc,
      isinstance_int wt = true -> 125 <= int_value wt ->
      exists c, get_weight_class wt = Return c /\
                Boxer_init i n wt h r a wc =
                  Return (mkBoxer i n (int_value wt) h r a c)) /\
  (forall boxer_id w b w',
      get_boxer_by_id boxer_id w = (Return b, w') -> classified b) /\
  (forall boxer_name w b w',
      get_boxer_by_name boxer_name w = (Return b, w') -> classified b).
Proof.
  split; [exact Boxer_init_returns|].
  split.
  { intros i n wt h r a wc Hbad.
    unfold Boxer_init, obind.
    destruct (get_weight_class wt) as [c|e] eqn:Hc.
    - apply get_weight_class_returns in Hc as [Hint Hw].
      destruct Hbad; [congruence | lia].
    - revert Hc; unfold get_weight_class.
      repeat match goal with
        | |- context [if ?c then _ else _] => destruct c
        end; intros [= <-]; eauto. }
  split.
  { intros i n wt h r a wc Hint Hw.
    destruct (get_weight_class_total wt Hint Hw) as [c Hc].
    exists c; split; [assumption|].
    unfold Boxer_init; now rewrite Hc. }
  split.
  - intros boxer_id w b w'.
    unfold get_boxer_by_id.
    destruct (boxer_id <? 0); [discriminate|].
    unfold get_db_connection, select_one, sqlite3_call, bind, get, ret.
    destruct (sqlite_raises w (db_calls w)); [discriminate|].
    destruct (sqlite_raises (tick_db w) (db_calls (tick_db w)));
      [discriminate|].
    apply materialized_classified.
  - intros boxer_name w b w'.
    unfold get_boxer_by_name.
    destruct (String.eqb boxer_name ""); [discriminate|].
    unfold get_db_connection, select_one, sqlite3_call, bind, get, ret.
    destruct (sqlite_raises w (db_calls w)); [discriminate|].
    destruct (sqlite_raises (tick_db w) (db_calls (tick_db w)));
      [discriminate|].
    apply materialized_classified.
Qed.

Lemma Boxer_weight_class_invariant_witness :
  (exists m, Boxer_init 7 "Feather" (PyInt 124) 70 72%float 25 None
             = Raise (ValueError m)) /\
  (exists m, Boxer_init 7 "Feather" (PyFloat 150%float) 70 72%float 25 None
             = Raise (ValueError m)) /\
  (exists c, get_weight_class (PyInt 160) = Return c /\
             Boxer_init 1 "Boxer1" (PyInt 160) 70 72%float 25 (Some "HEAVYWEIGHT")
             = Return (mkBoxer 1 "Boxer1" 160 70 72%float 25 c)) /\
  classified sample_boxer1.
Proof.
  destruct Boxer_weight_class_invariant as (Hret & Hbad & Hok & _).
  split; [apply Hbad; right; simpl; lia|].
  split; [apply Hbad; left; reflexivity|].
  split; [apply (Hok 1 "Boxer1" (PyInt 160)); [reflexivity | simpl; lia]|].
  apply (Hret 1 "Boxer1" (PyInt 160) 70 72%float 25 (Some "HEAVYWEIGHT")).
  reflexivity.
Defined.

(** ** The ring *)

Ltac step_match :=
  match goal with
  | |- context [match ?x with _ => _ end] =>
      lazymatch x with
      | context [match _ with _ => _ end] => fail
      | _ => destruct x eqn:?
      end
  end.

Ltac run_method :=
  cbv [fight enter_ring clear_ring get_boxers self_ring set_self_ring
       in_world pure bind ret raise get after fst snd ring].

Lemma clear_ring_spec (rm : RingModel) (w : world) :
  clear_ring (rm, w) = (Return tt, (RingModel_init, w)).
Proof. destruct rm as [[|b r]]; reflexivity. Qed.

(** Whatever a call to [fight] does, the ring it leaves is the one it found
    when it raises, and the empty one when it returns. *)
Lemma fight_outcome (s : RingModel * world) :
  match fight s with
  | (Return _, s') => fst s' = RingModel_init
  | (Raise _, s') => fst s' = fst s
  end.
Proof.
  destruct s as [[r] w].
  destruct r as [|b1 [|b2 [|b3 r]]]; try reflexivity.
  run_method; cbv [List.length Nat.ltb Nat.leb].
  repeat (step_match; cbn [fst snd ring]; try reflexivity).
Qed.

(** [fight] on a full ring, once both skills, the normalized delta and the
    random number are there: the two updates in turn, then the clearing. *)
Lemma fight_full (boxer_1 boxer_2 : Boxer) (w w1 : world)
    (skill_1 skill_2 p random_number : float) :
  get_fighting_skill boxer_1 = Return skill_1 ->
  get_fighting_skill boxer_2 = Return skill_2 ->
  normalized_delta (libm_pow w) (abs (skill_1 - skill_2)) = Return p ->
  get_random w = (Return random_number, w1) ->
  fight (mkRingModel [boxer_1; boxer_2], w) =
    let winner := if (random_number <? p)%float then boxer_1 else boxer_2 in
    let loser := if (random_number <? p)%float then boxer_2 else boxer_1 in
    match update_boxer_stats (id winner) "win" w1 with
    | (Raise e, w2) => (Raise e, (mkRingModel [boxer_1; boxer_2], w2))
    | (Return _, w2) =>
        match update_boxer_stats (id loser) "loss" w2 with
        | (Raise e, w3) => (Raise e, (mkRingModel [boxer_1; boxer_2], w3))
        | (Return _, w3) => (Return (name winner), (RingModel_init, w3))
        end
    end.
Proof.
  intros H1 H2 Hp Hr.
  run_method; cbv [List.length Nat.ltb Nat.leb].
  rewrite H1, H2, Hp, Hr; cbv zeta.
  destruct (random_number <? p)%float;
    repeat (step_match; try reflexivity).
Qed.

(** C7: [clear_ring] returns from every ring, leaves no boxer in it, and
    doing it twice is doing it once; on an empty ring it changes nothing. *)
Theorem clear_ring_idempotent (rm : RingModel) (w : world) :
  clear_ring (rm, w) = (Return tt, (RingModel_init, w)) /\
  get_boxers (after clear_ring (rm, w)) = (Return [], (RingModel_init, w)) /\
  (clear_ring ;;; clear_ring) (rm, w) = clear_ring (rm, w) /\
  clear_ring (RingModel_init, w) = (Return tt, (RingModel_init, w)).
Proof.
  unfold after, bind; rewrite !clear_ring_spec.
  repeat split.
Qed.

(** C6: with fewer than two boxers in the ring, [fight] raises the
    [ValueError] "There must be two boxers to start a fight." and leaves
    the ring and the world (no call to the database or to random.org
    counted) as they were. *)
Theorem fight_needs_two_boxers (rm : RingModel) (w : world) :
  (List.length (ring rm) < 2)%nat ->
  fight (rm, w) =
    (Raise (ValueError [Lit "There must be two boxers to start a fight."]),
     (rm, w)).
Proof.
  destruct rm as [[|b1 [|b2 r]]]; cbn [ring List.length]; intros H;
    try lia; reflexivity.
Qed.

Lemma fight_needs_two_boxers_witness :
  fight (mkRingModel [sample_boxer1], sample_world [sample_boxer1]) =
    (Raise (ValueError [Lit "There must be two boxers to start a fight."]),
     (mkRingModel [sample_boxer1], sample_world [sample_boxer1])).
Proof.
  apply (fight_needs_two_boxers (mkRingModel [sample_boxer1])).
  simpl; lia.
Defined.

Lemma enter_ring_length (o : pyobj) (s : RingModel * world) :
  (List.length (ring (fst s)) <= 2)%nat ->
  (List.length (ring (fst (after (enter_ring o) s))) <= 2)%nat.
Proof.
  destruct s as [[r] w]; destruct o; run_method; auto.
  destruct (Nat.leb_spec 2 (List.length r)); cbn [fst snd ring]; auto.
  rewrite length_app; simpl; lia.
Qed.

Lemma run_call_length (c : call) (s : RingModel * world) :
  (List.length (ring (fst s)) <= 2)%nat ->
  (List.length (ring (fst (run_call c s))) <= 2)%nat.
Proof.
  intros H; destruct c; cbn [run_call].
  - now apply enter_ring_length.
  - destruct s as [rm w]; unfold after; rewrite clear_ring_spec; simpl; lia.
  - unfold after. pose proof (fight_outcome s) as Hf.
    destruct (fight s) as [[n|e] s']; cbn [snd]; rewrite Hf;
      [simpl; lia | assumption].
  - assumption.
Qed.

Lemma run_calls_length (cs : list call) (s : RingModel * world) :
  (List.length (ring (fst s)) <= 2)%nat ->
  (List.length (ring (fst (run_calls cs s))) <= 2)%nat.
Proof.
  revert s; induction cs as [|c cs IH]; intros s H; [exact H|].
  apply IH, run_call_length, H.
Qed.

(** C5: after any sequence of calls on a new ring at most two boxers are in
    it; [enter_ring] appends a boxer to a ring of fewer than two, raises
    the [ValueError] "Ring is full, cannot add more boxers." on a ring of
    two and leaves it as it was, and raises [TypeError] for an argument
    that is not a [Boxer]. *)
Theorem ring_never_exceeds_two :
  (forall cs w,
      (List.length (ring (fst (run_calls cs (RingModel_init, w)))) <= 2)%nat) /\
  (forall rm w b,
      (List.length (ring rm) < 2)%nat ->
      enter_ring (PyBoxer b) (rm, w) =
        (Return tt, (mkRingModel (ring rm ++ [b]), w))) /\
  (forall rm w b,
      (2 <= List.length (ring rm))%nat ->
      enter_ring (PyBoxer b) (rm, w) =
        (Raise (ValueError [Lit "Ring is full, cannot add more boxers."]),
         (rm, w))) /\
  (forall rm w o,
      (forall b, o <> PyBoxer b) ->
      enter_ring o (rm, w) =
        (Raise (TypeError [Lit "Invalid type: Expected 'Boxer', got '";
                           Lit (type_name o); Lit "'"]), (rm, w))).
Proof.
  split; [intros cs w; apply run_calls_length; simpl; lia|].
  split; [|split].
  - intros [r] w b H; run_method.
    destruct (Nat.leb_spec 2 (List.length r)); [cbn [ring] in H; lia|].
    reflexivity.
  - intros [r] w b H; run_method.
    destruct (Nat.leb_spec 2 (List.length r)); [|cbn [ring] in H; lia].
    reflexivity.
  - intros rm w o H; destruct o; try reflexivity.
    now destruct (H b).
Qed.

Lemma ring_never_exceeds_two_witness :
  enter_ring (PyBoxer sample_boxer1) (RingModel_init, sample_world []) =
    (Return tt, (mkRingModel [sample_boxer1], sample_world [])) /\
  enter_ring (PyBoxer sample_boxer2)
             (mkRingModel [sample_boxer1], sample_world []) =
    (Return tt, (mkRingModel [sample_boxer1; sample_boxer2], sample_world [])) /\
  enter_ring (PyBoxer endless_boxer1)
             (mkRingModel [sample_boxer1; sample_boxer2], sample_world []) =
    (Raise (ValueError [Lit "Ring is full, cannot add more boxers."]),
     (mkRingModel [sample_boxer1; sample_boxer2], sample_world [])) /\
  enter_ring (PyStr "NotABoxer") (RingModel_init, sample_world []) =
    (Raise (TypeError [Lit "Invalid type: Expected 'Boxer', got '";
                       Lit "str"; Lit "'"]),
     (RingModel_init, sample_world [])).
Proof.
  destruct ring_never_exceeds_two as (_ & Henter & Hfull & Htype).
  split; [apply (Henter RingModel_init); simpl; lia|].
  split; [apply (Henter (mkRingModel [sample_boxer1])); simpl; lia|].
  split; [apply (Hfull (mkRingModel [sample_boxer1; sample_boxer2]));
          simpl; lia|].
  apply (Htype RingModel_init (sample_world []) (PyStr "NotABoxer")).
  intros b; discriminate.
Defined.

(** ** The skill score *)

#[local] Open Scope float_scope.

Lemma float_of_small_int :
  float_of_int (-2) = Return (-2) /\ float_of_int (-1) = Return (-1) /\
  float_of_int 0 = Return 0 /\ float_of_int 1 = Return 1 /\
  float_of_int 10 = Return 10 /\ float_of_int 960 = Return 960.
Proof. repeat split. Qed.

Lemma float_of_age_modifier (boxer : Boxer) :
  float_of_int (age_modifier boxer) =
    Return (if (age boxer <? 25)%Z then -1
            else if (age boxer >? 35)%Z then -2 else 0).
Proof.
  unfold age_modifier.
  destruct (age boxer <? 25)%Z; [reflexivity|].
  destruct (age boxer >? 35)%Z; reflexivity.
Qed.

Lemma get_fighting_skill_eq (boxer : Boxer) (base : float) :
  float_of_int (weight boxer * Z.of_nat (String.length (name boxer))) =
    Return base ->
  get_fighting_skill boxer =
    Return (base + reach boxer / 10
            + (if (age boxer <? 25)%Z then -1
               else if (age boxer >? 35)%Z then -2 else 0)).
Proof.
  intros Hbase; unfold get_fighting_skill.
  rewrite Hbase, float_of_age_modifier; reflexivity.
Qed.

(** C4: the skill of a boxer is the weight times the length of the name
    (an integer, turned into a double), plus a tenth of the reach, plus -1
    under 25 years, -2 over 35 and 0 in between, added in this order on
    doubles; it depends on the boxer alone.  Weight 160, a name of six
    characters, reach 72.0 and age 25 give exactly 967.2. *)
Theorem get_fighting_skill_formula (boxer : Boxer) :
  (exists modifier : float,
      ((age boxer < 25)%Z -> modifier = -1) /\
      ((35 < age boxer)%Z -> modifier = -2) /\
      ((25 <= age boxer <= 35)%Z -> modifier = 0) /\
      get_fighting_skill boxer =
        (base <~ float_of_int
                   (weight boxer * Z.of_nat (String.length (name boxer))) ;;
         Return (base + reach boxer / 10 + modifier)) /\
      forall base : float,
        float_of_int (weight boxer * Z.of_nat (String.length (name boxer))) =
          Return base ->
        get_fighting_skill boxer =
          Return (base + reach boxer / 10 + modifier)) /\
  (weight boxer = 160%Z -> String.length (name boxer) = 6%nat ->
   reach boxer = 72 -> age boxer = 25%Z ->
   get_fighting_skill boxer = Return 967.2).
Proof.
  split.
  - exists (if (age boxer <? 25)%Z then -1
            else if (age boxer >? 35)%Z then -2 else 0).
    rewrite Z.gtb_ltb.
    repeat split; try (intros H; by_thresholds; reflexivity).
    + unfold get_fighting_skill.
      rewrite float_of_age_modifier, Z.gtb_ltb; reflexivity.
    + intros base Hbase.
      rewrite (get_fighting_skill_eq boxer base Hbase), Z.gtb_ltb.
      reflexivity.
  - intros Hw Hn Hr Ha.
    rewrite (get_fighting_skill_eq boxer 960).
    + rewrite Hr, Ha; reflexivity.
    + rewrite Hw, Hn; reflexivity.
Qed.

Lemma get_fighting_skill_formula_witness :
  get_fighting_skill sample_boxer1 = Return 967.2 /\
  exists modifier : float,
    modifier = 0 /\
    get_fighting_skill sample_boxer2 = Return (990 + 74 / 10 + modifier).
Proof.
  split.
  - apply (proj2 (get_fighting_skill_formula sample_boxer1)); reflexivity.
  - destruct (proj1 (get_fighting_skill_formula sample_boxer2))
      as (modifier & _ & _ & Hmid & _ & Hskill).
    exists modifier; split.
    + apply Hmid; simpl; lia.
    + apply (Hskill 990); reflexivity.
Defined.

#[local] Close Scope float_scope.

(** ** Creating a boxer *)



(** ** The fight *)

(** The ring of C1 is not cleared when an update fails: with [sample_boxer2]
    missing from the table, the win of [sample_boxer1] is recorded, the
    loss of [sample_boxer2] raises, and both boxers are still in the ring. *)
Lemma fight_keeps_ring_when_stats_fail :
  fst (fight (full_ring, sample_world [sample_boxer1])) =
    Raise (ValueError [Lit "Boxer with ID "; Obj (PyInt 2);
                       Lit " not found."]) /\
  fst (get_boxers (after fight (full_ring, sample_world [sample_boxer1]))) =
    Return [sample_boxer1; sample_boxer2] /\
  boxers (snd (after fight (full_ring, sample_world [sample_boxer1]))) =
    [mkRow 1 "Boxer1" 160 70 72%float 25 1 1].
Proof. repeat split. Qed.

(** C1, amended: on a full ring, [fight] leaves the ring empty when both
    updates of the statistics return, and then returns the winner's name;
    when the first or the second update raises, [fight] raises the same
    exception and both boxers are still in the ring. *)
Theorem fight_clears_ring_when_stats_recorded (boxer_1 boxer_2 : Boxer)
    (w w1 : world) (skill_1 skill_2 p random_number : float) :
  get_fighting_skill boxer_1 = Return skill_1 ->
  get_fighting_skill boxer_2 = Return skill_2 ->
  normalized_delta (libm_pow w) (abs (skill_1 - skill_2)) = Return p ->
  get_random w = (Return random_number, w1) ->
  let winner := if (random_number <? p)%float then boxer_1 else boxer_2 in
  let loser := if (random_number <? p)%float then boxer_2 else boxer_1 in
  (forall e w2,
      update_boxer_stats (id winner) "win" w1 = (Raise e, w2) ->
      fight (mkRingModel [boxer_1; boxer_2], w) =
        (Raise e, (mkRingModel [boxer_1; boxer_2], w2))) /\
  (forall e w2 w3,
      update_boxer_stats (id winner) "win" w1 = (Return tt, w2) ->
      update_boxer_stats (id loser) "loss" w2 = (Raise e, w3) ->
      fight (mkRingModel [boxer_1; boxer_2], w) =
        (Raise e, (mkRingModel [boxer_1; boxer_2], w3))) /\
  (forall w2 w3,
      update_boxer_stats (id winner) "win" w1 = (Return tt, w2) ->
      update_boxer_stats (id loser) "loss" w2 = (Return tt, w3) ->
      fight (mkRingModel [boxer_1; boxer_2], w) =
        (Return (name winner), (RingModel_init, w3))).
Proof.
  intros H1 H2 Hp Hr winner loser.
  rewrite (fight_full _ _ _ _ _ _ _ _ H1 H2 Hp Hr); cbv zeta.
  fold winner loser.
  repeat split.
  - intros e w2 ->; reflexivity.
  - intros e w2 w3 -> ->; reflexivity.
  - intros w2 w3 -> ->; reflexivity.
Qed.

Lemma fight_clears_ring_when_stats_recorded_witness :
  (exists w3,
      fight (full_ring, sample_world [sample_boxer1]) =
        (Raise (ValueError [Lit "Boxer with ID "; Obj (PyInt 2);
                            Lit " not found."]), (full_ring, w3))) /\
  (exists w3,
      fight (full_ring, sample_world [sample_boxer1; sample_boxer2]) =
        (Return "Boxer1", (RingModel_init, w3))).
Proof.
  split.
  - eexists.
    eapply (proj1 (proj2
              (fight_clears_ring_when_stats_recorded
                 sample_boxer1 sample_boxer2 (sample_world [sample_boxer1])
                 _ _ _ _ _ eq_refl eq_refl eq_refl eq_refl)));
      reflexivity.
  - eexists.
    eapply (proj2 (proj2
              (fight_clears_ring_when_stats_recorded
                 sample_boxer1 sample_boxer2
                 (sample_world [sample_boxer1; sample_boxer2])
                 _ _ _ _ _ eq_refl eq_refl eq_refl eq_refl)));
      reflexivity.
Defined.

(** C2: on a full ring holding [boxer_1] then [boxer_2], with the random
    number [random_number] and the normalized delta [p] of the two skills,
    and both updates of the statistics returning, [fight] returns the name
    of [boxer_1] when [random_number < p] and the name of [boxer_2]
    otherwise; nothing is asked of the order of the two skills. *)
Theorem fight_first_entered_wins_below_p (boxer_1 boxer_2 : Boxer)
    (w w1 w2 w3 : world) (skill_1 skill_2 p random_number : float) :
  get_fighting_skill boxer_1 = Return skill_1 ->
  get_fighting_skill boxer_2 = Return skill_2 ->
  normalized_delta (libm_pow w) (abs (skill_1 - skill_2)) = Return p ->
  get_random w = (Return random_number, w1) ->
  update_boxer_stats
    (id (if (random_number <? p)%float then boxer_1 else boxer_2)) "win" w1 =
    (Return tt, w2) ->
  update_boxer_stats
    (id (if (random_number <? p)%float then boxer_2 else boxer_1)) "loss" w2 =
    (Return tt, w3) ->
  ((random_number <? p)%float = true ->
   fight (mkRingModel [boxer_1; boxer_2], w) =
     (Return (name boxer_1), (RingModel_init, w3))) /\
  ((random_number <? p)%float = false ->
   fight (mkRingModel [boxer_1; boxer_2], w) =
     (Return (name boxer_2), (RingModel_init, w3))).
Proof.
  intros H1 H2 Hp Hr Hwin Hloss.
  rewrite (fight_full _ _ _ _ _ _ _ _ H1 H2 Hp Hr); cbv zeta.
  rewrite Hwin, Hloss.
  split; intros ->; reflexivity.
Qed.

(** [sample_boxer1], the less skilled of the two, entered first and wins. *)
Lemma fight_first_entered_wins_below_p_witness :
  exists skill_1 skill_2 w3,
    get_fighting_skill sample_boxer1 = Return skill_1 /\
    get_fighting_skill sample_boxer2 = Return skill_2 /\
    (skill_1 <? skill_2)%float = true /\
    fight (full_ring, sample_world [sample_boxer1; sample_boxer2]) =
      (Return "Boxer1", (RingModel_init, w3)).
Proof.
  eexists; eexists; eexists.
  split; [reflexivity|].
  split; [reflexivity|].
  split; [reflexivity|].
  eapply (proj1
            (fight_first_entered_wins_below_p
               sample_boxer1 sample_boxer2
               (sample_world [sample_boxer1; sample_boxer2])
               _ _ _ _ _ _ _ eq_refl eq_refl eq_refl eq_refl
               eq_refl eq_refl));
    reflexivity.
Defined.

(** ** The skill difference and its normalization *)





(** When the exponent is so negative that [pow] underflows to zero, as at
    a skill difference of 1000, the normalized delta is 1.0 itself. *)
Lemma normalized_delta_saturates (pow : float -> float -> float) :
  pow math_e (-1000)%float = 0%float ->
  normalized_delta pow 1000 = Return 1%float.
Proof.
  intros H; unfold normalized_delta, pow_math_e.
  replace (- (1000))%float with (-1000)%float by reflexivity.
  change ((-1000 =? 0)%float) with false.
  change (is_nan (-1000)%float) with false.
  change (is_infinity (-1000)%float) with false.
  cbv iota; rewrite H; reflexivity.
Qed.




(** * More of the package *)

(** ** The repository: what a call does to the table *)

Ltac run_repository :=
  cbv [create_boxer update_boxer_stats delete_boxer get_boxer_by_id
       get_boxer_by_name try_except get_db_connection select_one execute
       commit sqlite3_call bind get put ret raise pure];
  cbn [boxers db_calls http_calls sqlite_raises random_org libm_pow
       tick_db set_boxers fst snd].

Ltac next_sqlite_call H :=
  rewrite H; cbn [boxers db_calls sqlite_raises tick_db].

Lemma find_some_id (i : Z) (t : list row) (r : row) :
  find (fun r => row_id r =? i) t = Some r -> In r t /\ row_id r = i.
Proof.
  intros H; apply find_some in H as [Hin Heq]; split; [assumption|].
  now apply Z.eqb_eq.
Qed.

Lemma find_id_filtered (i : Z) (t : list row) :
  find (fun r => row_id r =? i)
       (filter (fun r => negb (row_id r =? i)) t) = None.
Proof.
  destruct (find _ (filter _ t)) as [r|] eqn:Hf; [|reflexivity].
  apply find_some in Hf as [Hin Heq].
  apply filter_In in Hin as [_ Hneq].
  rewrite Heq in Hneq; discriminate.
Qed.

Lemma find_last {A : Type} (p : A -> bool) (l : list A) (x : A) :
  find p l = None -> p x = true -> find p (l ++ [x]) = Some x.
Proof.
  induction l as [|y l IH]; cbn; [now intros _ ->|].
  destruct (p y); [discriminate|]; exact IH.
Qed.

Lemma find_name_none (n : string) (t : list row) :
  find (fun x => String.eqb (row_name x) n) t = None <->
  (forall x, In x t -> row_name x <> n).
Proof.
  split.
  - intros H x Hin Hname; apply (find_none _ _ H) in Hin.
    rewrite Hname, String.eqb_refl in Hin; discriminate.
  - intros H; destruct (find _ t) as [x|] eqn:Hf; [|reflexivity].
    apply find_some in Hf as [Hin Heq].
    apply String.eqb_eq in Heq; now destruct (H x Hin).
Qed.

Lemma record_result_updated (i : Z) (result : string) (r : row) :
  result = "win" \/ result = "loss" ->
  updated i result r (record_result i result r).
Proof.
  intros H; unfold record_result, updated.
  destruct (row_id r =? i); destruct H as [-> | ->]; cbn;
    repeat split; lia.
Qed.

Lemma map_record_result_updated (i : Z) (result : string) (t : list row) :
  result = "win" \/ result = "loss" ->
  Forall2 (updated i result) t (map (record_result i result) t).
Proof.
  intros H; induction t as [|r t IH]; constructor; [|exact IH].
  now apply record_result_updated.
Qed.

Lemma update_boxer_stats_outcome (boxer_id : Z) (result : string) (w : world) :
  match update_boxer_stats boxer_id result w with
  | (Return _, w') =>
      (result = "win" \/ result = "loss") /\ 0 <= boxer_id /\
      (exists r, In r (boxers w) /\ row_id r = boxer_id) /\
      boxers w' = map (record_result boxer_id result) (boxers w)
  | (Raise _, w') => boxers w' = boxers w
  end.
Proof.
  unfold update_boxer_stats.
  destruct (String.eqb_spec result "win") as [Hw|Hw];
    [|destruct (String.eqb_spec result "loss") as [Hl|Hl]];
    cbn [orb negb]; try reflexivity;
    (destruct (Z.ltb_spec boxer_id 0); [reflexivity|]);
    run_repository;
    repeat (step_match; cbn [boxers tick_db set_boxers]; try reflexivity);
    (split; [auto|]; split; [assumption|]; split; [|reflexivity]);
    match goal with H : find _ _ = Some ?r |- _ =>
      exists r; now apply find_some_id in H end.
Qed.

Lemma delete_boxer_outcome (self : pyobj) (boxer_id : Z) (w : world) :
  match delete_boxer self boxer_id w with
  | (Return _, w') =>
      0 <= boxer_id /\
      (exists r, In r (boxers w) /\ row_id r = boxer_id) /\
      boxers w' = filter (fun r => negb (row_id r =? boxer_id)) (boxers w)
  | (Raise _, w') => boxers w' = boxers w
  end.
Proof.
  unfold delete_boxer.
  destruct (Z.ltb_spec boxer_id 0); [reflexivity|].
  run_repository.
  repeat (step_match; cbn [boxers tick_db set_boxers]; try reflexivity).
  split; [assumption|]; split; [|reflexivity].
  match goal with H : find _ _ = Some ?r |- _ =>
    exists r; now apply find_some_id in H end.
Qed.

Lemma create_boxer_outcome (n : string) (wt h : Z) (r : float) (a : Z)
    (w : world) :
  match create_boxer n wt h r a w with
  | (Return _, w') =>
      125 <= wt /\ 0 < h /\ (r <=? 0)%float = false /\ 18 <= a <= 40 /\
      find (fun x => String.eqb (row_name x) n) (boxers w) = None /\
      boxers w' = insert_boxer n wt h r a (boxers w)
  | (Raise _, w') => boxers w' = boxers w
  end.
Proof.
  unfold create_boxer.
  destruct (Z.ltb_spec wt 125); [reflexivity|].
  destruct (Z.leb_spec h 0); [reflexivity|].
  destruct (r <=? 0)%float eqn:Hr; [reflexivity|].
  destruct (Z.leb_spec 18 a); [|reflexivity].
  destruct (Z.leb_spec a 40); [|reflexivity].
  cbn [andb negb]; run_repository.
  repeat (step_match; cbn [snd boxers tick_db set_boxers]; try reflexivity).
  split; [lia|]; split; [lia|]; split; [reflexivity|].
  split; [lia|]; split; reflexivity.
Qed.

Lemma lookups_keep_table (w : world) :
  (forall i, boxers (snd (get_boxer_by_id i w)) = boxers w) /\
  (forall n, boxers (snd (get_boxer_by_name n w)) = boxers w).
Proof.
  split; intros x; run_repository;
    repeat (step_match; cbn [snd boxers tick_db set_boxers]; try reflexivity).
Qed.

Lemma get_random_world (w : world) : snd (get_random w) = tick_http w.
Proof. unfold get_random; repeat (step_match; try reflexivity). Qed.

Lemma update_boxer_stats_step (boxer_id : Z) (result : string) (w : world) :
  table_step (boxers w) (boxers (snd (update_boxer_stats boxer_id result w))).
Proof.
  pose proof (update_boxer_stats_outcome boxer_id result w) as H.
  destruct (update_boxer_stats boxer_id result w) as [[[]|e] w']; cbn [snd].
  - destruct H as (_ & _ & _ & ->); constructor.
  - rewrite H; constructor.
Qed.

Lemma delete_boxer_step (self : pyobj) (boxer_id : Z) (w : world) :
  table_step (boxers w) (boxers (snd (delete_boxer self boxer_id w))).
Proof.
  pose proof (delete_boxer_outcome self boxer_id w) as H.
  destruct (delete_boxer self boxer_id w) as [[[]|e] w']; cbn [snd].
  - destruct H as (_ & Hin & ->); now constructor.
  - rewrite H; constructor.
Qed.

Lemma create_boxer_step (n : string) (wt h : Z) (r : float) (a : Z)
    (w : world) :
  table_step (boxers w) (boxers (snd (create_boxer n wt h r a w))).
Proof.
  pose proof (create_boxer_outcome n wt h r a w) as H.
  destruct (create_boxer n wt h r a w) as [[[]|e] w']; cbn [snd].
  - destruct H as (? & ? & ? & ? & ? & ->); now constructor.
  - rewrite H; constructor.
Qed.

(** ** The fight, case by case *)

Lemma fight_on_two (boxer_1 boxer_2 : Boxer) (w : world) :
  fight (mkRingModel [boxer_1; boxer_2], w) =
    match get_fighting_skill boxer_1, get_fighting_skill boxer_2 with
    | Return skill_1, Return skill_2 =>
        match normalized_delta (libm_pow w) (abs (skill_1 - skill_2)) with
        | Return p =>
            match get_random w with
            | (Return random_number, w1) =>
                let winner :=
                  if (random_number <? p)%float then boxer_1 else boxer_2 in
                let loser :=
                  if (random_number <? p)%float then boxer_2 else boxer_1 in
                match update_boxer_stats (id winner) "win" w1 with
                | (Raise e, w2) =>
                    (Raise e, (mkRingModel [boxer_1; boxer_2], w2))
                | (Return _, w2) =>
                    match update_boxer_stats (id loser) "loss" w2 with
                    | (Raise e, w3) =>
                        (Raise e, (mkRingModel [boxer_1; boxer_2], w3))
                    | (Return _, w3) =>
                        (Return (name winner), (RingModel_init, w3))
                    end
                end
            | (Raise e, w1) => (Raise e, (mkRingModel [boxer_1; boxer_2], w1))
            end
        | Raise e => (Raise e, (mkRingModel [boxer_1; boxer_2], w))
        end
    | Raise e, _ | _, Raise e => (Raise e, (mkRingModel [boxer_1; boxer_2], w))
    end.
Proof.
  destruct (get_fighting_skill boxer_1) as [skill_1|e1] eqn:H1;
    [|run_method; cbv [List.length Nat.ltb Nat.leb]; rewrite H1; reflexivity].
  destruct (get_fighting_skill boxer_2) as [skill_2|e2] eqn:H2;
    [|run_method; cbv [List.length Nat.ltb Nat.leb]; rewrite H1, H2;
      reflexivity].
  destruct (normalized_delta (libm_pow w) (abs (skill_1 - skill_2)))
    as [p|e3] eqn:Hp;
    [|run_method; cbv [List.length Nat.ltb Nat.leb]; rewrite H1, H2, Hp;
      reflexivity].
  destruct (get_random w) as [[random_number|e4] w1] eqn:Hr;
    [|run_method; cbv [List.length Nat.ltb Nat.leb]; rewrite H1, H2, Hp, Hr;
      reflexivity].
  apply (fight_full _ _ _ _ _ _ _ _ H1 H2 Hp Hr).
Qed.

(** The table after a fight that returned. *)
Lemma fight_table (boxer_1 boxer_2 : Boxer) (w w' : world) (rm' : RingModel)
    (n : string) :
  fight (mkRingModel [boxer_1; boxer_2], w) = (Return n, (rm', w')) ->
  exists winner loser : Boxer,
    (winner = boxer_1 /\ loser = boxer_2 \/
     winner = boxer_2 /\ loser = boxer_1) /\
    n = name winner /\
    (exists r, In r (boxers w) /\ row_id r = id winner) /\
    boxers w' =
      map (record_result (id loser) "loss")
          (map (record_result (id winner) "win") (boxers w)).
Proof.
  rewrite fight_on_two.
  destruct (get_fighting_skill boxer_1) as [skill_1|],
           (get_fighting_skill boxer_2) as [skill_2|]; try discriminate.
  destruct (normalized_delta _ _) as [p|]; [|discriminate].
  pose proof (get_random_world w) as Hw.
  destruct (get_random w) as [[random_number|] w1]; [|discriminate].
  cbn [snd] in Hw; subst w1; cbv zeta.
  set (winner := if (random_number <? p)%float then boxer_1 else boxer_2).
  set (loser := if (random_number <? p)%float then boxer_2 else boxer_1).
  pose proof (update_boxer_stats_outcome (id winner) "win" (tick_http w))
    as Hwin.
  destruct (update_boxer_stats (id winner) "win" (tick_http w))
    as [[[]|] w2]; [|discriminate].
  pose proof (update_boxer_stats_outcome (id loser) "loss" w2) as Hloss.
  destruct (update_boxer_stats (id loser) "loss" w2) as [[[]|] w3];
    [|discriminate].
  intros [= <- <- <-].
  destruct Hwin as (_ & _ & Hwinner & Hw2).
  destruct Hloss as (_ & _ & _ & Hw3).
  exists winner, loser.
  split; [subst winner loser; destruct (random_number <? p)%float; auto|].
  split; [reflexivity|].
  split; [exact Hwinner|].
  now rewrite Hw3, Hw2.
Qed.

Lemma twice_recorded (winner loser : Boxer) (t : list row) :
  Forall2 (fought winner loser) t
    (map (record_result (id loser) "loss")
         (map (record_result (id winner) "win") t)).
Proof.
  induction t as [|r t IH]; constructor; [|exact IH].
  pose proof (record_result_updated (id winner) "win" r (or_introl eq_refl))
    as Hr1.
  pose proof (record_result_updated (id loser) "loss"
                (record_result (id winner) "win" r) (or_intror eq_refl))
    as Hr2.
  unfold updated in Hr1, Hr2; cbn [String.eqb Ascii.eqb Bool.eqb] in Hr1, Hr2.
  destruct Hr1 as (E1 & E2 & E3 & E4 & E5 & E6 & E7 & E8).
  destruct Hr2 as (F1 & F2 & F3 & F4 & F5 & F6 & F7 & F8).
  rewrite E1 in F7.
  unfold fought; repeat split; try congruence; lia.
Qed.

Lemma fight_steps (s : RingModel * world) :
  exists t1, table_step (boxers (snd s)) t1 /\
             table_step t1 (boxers (snd (after fight s))).
Proof.
  destruct s as [[r] w]; unfold after.
  destruct r as [|b1 [|b2 [|b3 r]]];
    try (exists (boxers w); split; constructor).
  rewrite fight_on_two.
  destruct (get_fighting_skill b1) as [s1|], (get_fighting_skill b2) as [s2|];
    try (exists (boxers w); split; constructor).
  destruct (normalized_delta _ _) as [p|];
    [|exists (boxers w); split; constructor].
  pose proof (get_random_world w) as Hw.
  destruct (get_random w) as [[x|e] w1]; cbn [snd] in Hw; subst w1;
    [|exists (boxers w); split; constructor].
  cbv zeta.
  set (winner := if (x <? p)%float then b1 else b2).
  set (loser := if (x <? p)%float then b2 else b1).
  pose proof (update_boxer_stats_step (id winner) "win" (tick_http w)) as H1.
  destruct (update_boxer_stats (id winner) "win" (tick_http w))
    as [[[]|] w2]; cbn [snd] in H1 |- *;
    [|exists (boxers w2); split; [exact H1|constructor]].
  pose proof (update_boxer_stats_step (id loser) "loss" w2) as H2.
  destruct (update_boxer_stats (id loser) "loss" w2) as [[[]|] w3];
    cbn [snd] in H2 |- *; exists (boxers w2); split; assumption.
Qed.

Lemma serve_steps (q : request) (s : RingModel * world) :
  exists t1, table_step (boxers (snd s)) t1 /\
             table_step t1 (boxers (snd (serve q s))).
Proof.
  destruct q as [c|n wt h r a|i|i res|i|n]; cbn [serve].
  - destruct c; cbn [run_call]; [| |apply fight_steps|];
      exists (boxers (snd s)); (split; [constructor|]);
      destruct s as [[r] w].
    + unfold after; destruct o; run_method; try constructor.
      destruct (2 <=? List.length r)%nat; constructor.
    + unfold after; rewrite clear_ring_spec; constructor.
    + constructor.
  - exists (boxers (snd s)); split; [constructor|].
    destruct s as [rm w]; unfold after, in_world; cbn [snd].
    pose proof (create_boxer_step n wt h r a w) as H.
    destruct (create_boxer n wt h r a w); exact H.
  - exists (boxers (snd s)); split; [constructor|].
    destruct s as [rm w]; unfold after, in_world; cbn [snd].
    pose proof (delete_boxer_step PyNone i w) as H.
    destruct (delete_boxer PyNone i w); exact H.
  - exists (boxers (snd s)); split; [constructor|].
    destruct s as [rm w]; unfold after, in_world; cbn [snd].
    pose proof (update_boxer_stats_step i res w) as H.
    destruct (update_boxer_stats i res w); exact H.
  - exists (boxers (snd s)); split; [constructor|].
    destruct s as [rm w]; unfold after, in_world; cbn [snd].
    pose proof (proj1 (lookups_keep_table w) i) as H.
    destruct (get_boxer_by_id i w); cbn [snd] in *; rewrite H; constructor.
  - exists (boxers (snd s)); split; [constructor|].
    destruct s as [rm w]; unfold after, in_world; cbn [snd].
    pose proof (proj2 (lookups_keep_table w) n) as H.
    destruct (get_boxer_by_name n w); cbn [snd] in *; rewrite H; constructor.
Qed.

(** ** What a step of the table keeps *)

Lemma record_result_admissible (i : Z) (res : string) (r : row) :
  admissible r -> admissible (record_result i res r).
Proof.
  unfold record_result, admissible.
  destruct (row_id r =? i), (String.eqb res "win"); cbn; auto.
Qed.

Lemma record_result_name (i : Z) (res : string) (r : row) :
  row_name (record_result i res r) = row_name r.
Proof.
  unfold record_result.
  destruct (row_id r =? i), (String.eqb res "win"); reflexivity.
Qed.

Lemma record_result_plausible (i : Z) (res : string) (r : row) :
  plausible r -> plausible (record_result i res r).
Proof.
  unfold record_result, plausible.
  destruct (row_id r =? i), (String.eqb res "win"); cbn; lia.
Qed.

(** Dropping rows keeps the names different. *)
Lemma names_stay_different (keep : row -> bool) (t : list row) :
  NoDup (map row_name t) -> NoDup (map row_name (filter keep t)).
Proof.
  induction t as [|x t IH]; cbn [filter map]; intros Hnd; [exact Hnd|].
  apply NoDup_cons_iff in Hnd as [Hnew Hnd].
  destruct (keep x); cbn [map]; [|now apply IH].
  apply NoDup_cons; [|now apply IH].
  rewrite in_map_iff; intros (y & Hname & Hy).
  apply filter_In in Hy as [Hy _].
  apply Hnew; rewrite <- Hname; now apply in_map.
Qed.

Lemma table_step_keeps (t t' : list row) :
  table_step t t' ->
  Forall admissible t /\ NoDup (map row_name t) ->
  Forall admissible t' /\ NoDup (map row_name t').
Proof.
  intros Hstep [Hadm Hnd]; destruct Hstep.
  - auto.
  - split.
    + apply Forall_map; revert Hadm; apply Forall_impl.
      intros r; apply record_result_admissible.
    + rewrite map_map.
      erewrite map_ext; [exact Hnd|]; apply record_result_name.
  - split.
    + apply Forall_forall; intros r Hin.
      apply filter_In in Hin as [Hin _].
      revert r Hin; now apply Forall_forall.
    + now apply names_stay_different.
  - unfold insert_boxer; split.
    + apply Forall_app; split; [assumption|].
      constructor; [|constructor]; repeat split; cbn; assumption || lia.
    + rewrite map_app; cbn.
      apply NoDup_app; [assumption|constructor; [intros []|constructor]|].
      intros x Hin [<-|[]].
      apply in_map_iff in Hin as (r0 & Hname & Hin).
      match goal with H : find _ _ = None |- _ =>
        apply (find_none _ _ H) in Hin end.
      rewrite Hname, String.eqb_refl in Hin; discriminate.
Qed.

Lemma table_step_plausible (t t' : list row) :
  table_step t t' -> Forall plausible t -> Forall plausible t'.
Proof.
  intros Hstep Hp; destruct Hstep.
  - assumption.
  - apply Forall_map; revert Hp; apply Forall_impl.
    intros r; apply record_result_plausible.
  - apply Forall_forall; intros r Hin.
    apply filter_In in Hin as [Hin _].
    revert r Hin; now apply Forall_forall.
  - unfold insert_boxer; apply Forall_app; split; [assumption|].
    constructor; [|constructor]; unfold plausible; cbn; lia.
Qed.

(** ** Recording a result *)

(** X1: [update_boxer_stats] changes the table all at once or not at all.
    When it returns, the result was 'win' or 'loss', the identity was not
    negative and was in the table, and each row of that identity has one
    fight more (and one win more for 'win') while every other column and
    row is as before; when it raises, the table is as before.  A result
    other than 'win' and 'loss', and a negative identity, raise
    [ValueError] without a call to the database. *)
Theorem update_boxer_stats_all_or_nothing (boxer_id : Z) (result : string)
    (w : world) :
  match update_boxer_stats boxer_id result w with
  | (Return _, w') =>
      (result = "win" \/ result = "loss") /\ 0 <= boxer_id /\
      (exists r, In r (boxers w) /\ row_id r = boxer_id) /\
      Forall2 (updated boxer_id result) (boxers w) (boxers w')
  | (Raise _, w') => boxers w' = boxers w
  end /\
  ((result <> "win" /\ result <> "loss") \/ boxer_id < 0 ->
   exists m, update_boxer_stats boxer_id result w = (Raise (ValueError m), w)).
Proof.
  split.
  - pose proof (update_boxer_stats_outcome boxer_id result w) as H.
    destruct (update_boxer_stats boxer_id result w) as [[[]|e] w'];
      [|exact H].
    destruct H as (Hres & Hid & Hin & ->).
    repeat split; try assumption.
    now apply map_record_result_updated.
  - unfold update_boxer_stats; intros Hbad.
    destruct (String.eqb_spec result "win") as [Hw|Hw];
      [|destruct (String.eqb_spec result "loss") as [Hl|Hl]];
      cbn [orb negb]; try (unfold raise; eauto);
      (destruct (Z.ltb_spec boxer_id 0); [unfold raise; eauto|]);
      exfalso; destruct Hbad as [[? ?]|?]; try contradiction; lia.
Qed.

(** ** Deleting a boxer *)

(** X2: [delete_boxer] raises [ValueError] for a negative identity without
    a call to the database, and otherwise changes the table all at once or
    not at all: when it returns, the identity was in the table and the
    table is the one before without the rows of that identity, the others
    in their order; when it raises, the table is as before. *)
Theorem delete_boxer_all_or_nothing (self : pyobj) (boxer_id : Z) (w : world) :
  match delete_boxer self boxer_id w with
  | (Return _, w') =>
      0 <= boxer_id /\
      (exists r, In r (boxers w) /\ row_id r = boxer_id) /\
      boxers w' = filter (fun r => negb (row_id r =? boxer_id)) (boxers w) /\
      (forall r, In r (boxers w') <-> In r (boxers w) /\ row_id r <> boxer_id)
  | (Raise _, w') => boxers w' = boxers w
  end /\
  (boxer_id < 0 ->
   delete_boxer self boxer_id w =
     (Raise (ValueError [Lit "Invalid Boxer ID: "; Obj (PyInt boxer_id);
                         Lit ". Must be a non-negative integer."]), w)).
Proof.
  split.
  - pose proof (delete_boxer_outcome self boxer_id w) as H.
    destruct (delete_boxer self boxer_id w) as [[[]|e] w']; [|exact H].
    destruct H as (Hid & Hin & ->); repeat split; try assumption.
    + now apply filter_In in H.
    + apply filter_In in H as [_ H]; intros Heq.
      apply Z.eqb_eq in Heq; rewrite Heq in H; discriminate.
    + intros [Hr Hne]; apply filter_In; split; [assumption|].
      now apply negb_true_iff, Z.eqb_neq.
  - intros Hneg; unfold delete_boxer.
    destruct (Z.ltb_spec boxer_id 0); [reflexivity|lia].
Qed.

(** X3: once [delete_boxer] has returned, the identity is unknown: as long
    as the database does not fail, [get_boxer_by_id], [update_boxer_stats]
    and a second [delete_boxer] raise the [ValueError] "Boxer with ID ...
    not found.". *)
Theorem deleted_boxer_is_unknown (self : pyobj) (boxer_id : Z) (w w1 : world) :
  delete_boxer self boxer_id w = (Return tt, w1) ->
  sqlite_raises w1 (db_calls w1) = None ->
  sqlite_raises w1 (S (db_calls w1)) = None ->
  let not_found :=
    ValueError [Lit "Boxer with ID "; Obj (PyInt boxer_id); Lit " not found."] in
  get_boxer_by_id boxer_id w1 = (Raise not_found, tick_db (tick_db w1)) /\
  update_boxer_stats boxer_id "win" w1 =
    (Raise not_found, tick_db (tick_db w1)) /\
  update_boxer_stats boxer_id "loss" w1 =
    (Raise not_found, tick_db (tick_db w1)) /\
  delete_boxer self boxer_id w1 = (Raise not_found, tick_db (tick_db w1)).
Proof.
  intros Hd H1 H2.
  pose proof (delete_boxer_outcome self boxer_id w) as H.
  rewrite Hd in H; destruct H as (Hi & _ & Ht).
  pose proof (find_id_filtered boxer_id (boxers w)) as Hf; rewrite <- Ht in Hf.
  cbv zeta; unfold get_boxer_by_id, update_boxer_stats, delete_boxer.
  destruct (Z.ltb_spec boxer_id 0); [lia|].
  cbn [String.eqb Ascii.eqb Bool.eqb orb negb andb].
  run_repository; next_sqlite_call H1; next_sqlite_call H2; rewrite Hf.
  repeat split.
Qed.

Lemma deleted_boxer_is_unknown_witness :
  get_boxer_by_id 1
    (snd (delete_boxer PyNone 1 (sample_world [sample_boxer1; sample_boxer2])))
  = (Raise (ValueError [Lit "Boxer with ID "; Obj (PyInt 1);
                        Lit " not found."]),
     tick_db (tick_db
       (snd (delete_boxer PyNone 1
               (sample_world [sample_boxer1; sample_boxer2]))))).
Proof.
  apply (deleted_boxer_is_unknown PyNone 1
           (sample_world [sample_boxer1; sample_boxer2]) _
           eq_refl eq_refl eq_refl).
Defined.

(** ** Creating a boxer and finding it again *)

(** X4: [create_boxer] changes the table all at once or not at all.  When
    it returns, the four checks passed, no row had the name, and the table
    is the one before followed by one row with the name, weight, height,
    reach and age given; when it raises, the table is as before. *)
Theorem create_boxer_all_or_nothing (n : string) (wt h : Z) (r : float)
    (a : Z) (w : world) :
  match create_boxer n wt h r a w with
  | (Return _, w') =>
      125 <= wt /\ 0 < h /\ (r <=? 0)%float = false /\ 18 <= a <= 40 /\
      (forall x, In x (boxers w) -> row_name x <> n) /\
      exists new,
        boxers w' = (boxers w ++ [new])%list /\
        row_name new = n /\ row_weight new = wt /\ row_height new = h /\
        row_reach new = r /\ row_age new = a
  | (Raise _, w') => boxers w' = boxers w
  end.
Proof.
  pose proof (create_boxer_outcome n wt h r a w) as H.
  destruct (create_boxer n wt h r a w) as [[[]|e] w']; [|exact H].
  destruct H as (Hw & Hh & Hr & Ha & Hfresh & ->).
  repeat (split; [assumption|]).
  split; [now apply find_name_none|].
  eexists; split; [reflexivity|]; repeat split.
Qed.

(** X5: with arguments that pass the four checks and a database that does
    not fail, [create_boxer] under a name that a row already has raises
    the [ValueError] "Boxer With name '...' already exists" after two
    calls to sqlite3, the table being as before. *)
Theorem create_boxer_rejects_known_name (n : string) (wt h : Z) (r : float)
    (a : Z) (w : world) (x : row) :
  125 <= wt -> 0 < h -> (r <=? 0)%float = false -> 18 <= a <= 40 ->
  In x (boxers w) -> row_name x = n ->
  sqlite_raises w (db_calls w) = None ->
  sqlite_raises w (S (db_calls w)) = None ->
  create_boxer n wt h r a w =
    (Raise (ValueError [Lit "Boxer With name '"; Obj (PyStr n);
                        Lit "' already exists"]), tick_db (tick_db w)).
Proof.
  intros Hw Hh Hr Ha Hin Hname H1 H2; unfold create_boxer; rewrite Hr.
  destruct (Z.ltb_spec wt 125); [lia|].
  destruct (Z.leb_spec h 0); [lia|].
  destruct (Z.leb_spec 18 a); [|lia].
  destruct (Z.leb_spec a 40); [|lia].
  cbn [andb negb]; run_repository.
  next_sqlite_call H1; next_sqlite_call H2.
  destruct (find (fun r0 => String.eqb (row_name r0) n) (boxers w)) eqn:Hfind;
    [reflexivity|].
  now destruct (proj1 (find_name_none n _) Hfind x Hin).
Qed.

Lemma create_boxer_rejects_known_name_witness :
  create_boxer "Boxer1" 200 75 80%float 30 (sample_world [sample_boxer1]) =
    (Raise (ValueError [Lit "Boxer With name '"; Obj (PyStr "Boxer1");
                        Lit "' already exists"]),
     tick_db (tick_db (sample_world [sample_boxer1]))).
Proof.
  apply (create_boxer_rejects_known_name "Boxer1" 200 75 80%float 30
           (sample_world [sample_boxer1]) (row_of sample_boxer1));
    try lia; try reflexivity.
  left; reflexivity.
Defined.

(** X6: a boxer created under a name that is not empty is found again by
    that name, as long as the database does not fail: [get_boxer_by_name]
    returns a [Boxer] with the name, weight, height, reach and age given
    to [create_boxer] and with the weight class of that weight. *)
Theorem create_then_get_by_name (n : string) (wt h : Z) (r : float) (a : Z)
    (w w1 : world) :
  create_boxer n wt h r a w = (Return tt, w1) ->
  n <> "" ->
  sqlite_raises w1 (db_calls w1) = None ->
  sqlite_raises w1 (S (db_calls w1)) = None ->
  exists b,
    get_boxer_by_name n w1 = (Return b, tick_db (tick_db w1)) /\
    name b = n /\ weight b = wt /\ height b = h /\ reach b = r /\ age b = a /\
    get_weight_class (PyInt wt) = Return (weight_class b).
Proof.
  intros Hc Hn H1 H2.
  pose proof (create_boxer_outcome n wt h r a w) as H.
  rewrite Hc in H; destruct H as (Hw & _ & _ & _ & Hfresh & Ht).
  destruct (get_weight_class_total (PyInt wt) eq_refl Hw) as [c Hclass].
  unfold get_boxer_by_name.
  destruct (String.eqb_spec n ""); [contradiction|].
  run_repository; next_sqlite_call H1; next_sqlite_call H2.
  rewrite Ht; unfold insert_boxer.
  rewrite (find_last _ _ _ Hfresh) by apply String.eqb_refl.
  unfold Boxer_init; cbn [row_weight row_id row_name row_height row_reach
                          row_age].
  rewrite Hclass; cbn [obind].
  eexists; split; [reflexivity|]; cbn.
  repeat split; auto.
Qed.

Lemma create_then_get_by_name_witness :
  exists b,
    get_boxer_by_name "Rocky"
      (snd (create_boxer "Rocky" 190 71 74%float 30
              (sample_world [sample_boxer1]))) =
      (Return b,
       tick_db (tick_db
         (snd (create_boxer "Rocky" 190 71 74%float 30
                 (sample_world [sample_boxer1]))))) /\
    name b = "Rocky" /\ weight b = 190 /\ height b = 71 /\
    reach b = 74%float /\ age b = 30 /\
    get_weight_class (PyInt 190) = Return (weight_class b).
Proof.
  apply (create_then_get_by_name "Rocky" 190 71 74%float 30
           (sample_world [sample_boxer1]) _ eq_refl);
    [discriminate | reflexivity | reflexivity].
Defined.

(** X7: [create_boxer] does not look at the name, but [get_boxer_by_name]
    refuses the empty one: a boxer created under the empty name is in the
    table, and [get_boxer_by_name("")] raises [ValueError] in every world,
    without a call to the database. *)
Theorem nameless_boxer_cannot_be_fetched (wt h : Z) (r : float) (a : Z)
    (w w1 : world) :
  create_boxer "" wt h r a w = (Return tt, w1) ->
  (exists x, In x (boxers w1) /\ row_name x = "" /\ row_weight x = wt) /\
  forall w2,
    get_boxer_by_name "" w2 =
      (Raise (ValueError [Lit "Invalid boxer name: "; Obj (PyStr "");
                          Lit ". Must be a non-empty string."]), w2).
Proof.
  intros Hc; split; [|reflexivity].
  pose proof (create_boxer_outcome "" wt h r a w) as H.
  rewrite Hc in H; destruct H as (_ & _ & _ & _ & _ & ->).
  unfold insert_boxer; eexists; split; [apply in_or_app; right; left;
                                        reflexivity|].
  split; reflexivity.
Qed.

Lemma nameless_boxer_cannot_be_fetched_witness :
  (exists x,
      In x (boxers (snd (create_boxer "" 150 70 72%float 25 (sample_world []))))
      /\ row_name x = "" /\ row_weight x = 150) /\
  forall w2,
    get_boxer_by_name "" w2 =
      (Raise (ValueError [Lit "Invalid boxer name: "; Obj (PyStr "");
                          Lit ". Must be a non-empty string."]), w2).
Proof.
  apply (nameless_boxer_cannot_be_fetched 150 70 72%float 25
           (sample_world []) _ eq_refl).
Defined.

(** ** What every sequence of requests keeps *)

(** X8: whatever requests are served (calls on the ring, [create_boxer],
    [delete_boxer], [update_boxer_stats], the two lookups), returning or
    raising, a table whose rows pass the checks of [create_boxer] and bear
    different names stays such a table. *)
Theorem table_stays_valid (qs : list request) (s : RingModel * world) :
  Forall admissible (boxers (snd s)) ->
  NoDup (map row_name (boxers (snd s))) ->
  Forall admissible (boxers (snd (serve_all qs s))) /\
  NoDup (map row_name (boxers (snd (serve_all qs s)))).
Proof.
  revert s; induction qs as [|q qs IH]; intros s Hadm Hnd; [split; assumption|].
  cbn [serve_all fold_left].
  destruct (serve_steps q s) as (t1 & H1 & H2).
  pose proof (table_step_keeps _ _ H1 (conj Hadm Hnd)) as H.
  destruct (table_step_keeps _ _ H2 H) as [Hadm' Hnd'].
  now apply IH.
Qed.

Lemma table_stays_valid_witness :
  Forall admissible
    (boxers (snd (serve_all
       [CreateBoxer "Boxer1" 160 70 72%float 25;
        CreateBoxer "Boxer1" 170 70 72%float 25;
        CreateBoxer "Light" 100 70 72%float 25;
        CreateBoxer "Boxer2" 165 72 74%float 30;
        OnRing (Enter (PyBoxer sample_boxer1));
        OnRing (Enter (PyBoxer sample_boxer2));
        OnRing Fight; DeleteBoxer 1]
       (RingModel_init, sample_world [])))) /\
  NoDup (map row_name
    (boxers (snd (serve_all
       [CreateBoxer "Boxer1" 160 70 72%float 25;
        CreateBoxer "Boxer1" 170 70 72%float 25;
        CreateBoxer "Light" 100 70 72%float 25;
        CreateBoxer "Boxer2" 165 72 74%float 30;
        OnRing (Enter (PyBoxer sample_boxer1));
        OnRing (Enter (PyBoxer sample_boxer2));
        OnRing Fight; DeleteBoxer 1]
       (RingModel_init, sample_world []))))).
Proof.
  apply (table_stays_valid _ (RingModel_init, sample_world [])); constructor.
Defined.

(** X9: no row ever has more wins than fights, or a negative count, once
    that holds of the table: [update_boxer_stats], [delete_boxer] and
    [fight] keep it, whether they return or raise. *)
Theorem wins_never_exceed_fights (w : world) :
  Forall plausible (boxers w) ->
  (forall boxer_id result,
      Forall plausible
        (boxers (snd (update_boxer_stats boxer_id result w)))) /\
  (forall self boxer_id,
      Forall plausible (boxers (snd (delete_boxer self boxer_id w)))) /\
  (forall rm,
      Forall plausible (boxers (snd (after fight (rm, w))))).
Proof.
  intros Hp; repeat split.
  - intros i res.
    apply (table_step_plausible _ _ (update_boxer_stats_step i res w) Hp).
  - intros self i.
    apply (table_step_plausible _ _ (delete_boxer_step self i w) Hp).
  - intros rm; destruct (fight_steps (rm, w)) as (t1 & H1 & H2).
    apply (table_step_plausible _ _ H2), (table_step_plausible _ _ H1), Hp.
Qed.

Lemma wins_never_exceed_fights_witness :
  Forall plausible
    (boxers (snd (after fight
       (full_ring, sample_world [sample_boxer1; sample_boxer2])))).
Proof.
  apply (wins_never_exceed_fights
           (sample_world [sample_boxer1; sample_boxer2])).
  repeat constructor; cbn; lia.
Defined.

(** ** More on the fight *)

(** X10: without a random number there is no fight: when random.org times
    out, fails or sends something that is not a number, [fight] on a full
    ring raises, the two boxers are still in the ring, the table is as
    before and no call to sqlite3 was made. *)
Theorem fight_needs_a_random_number (boxer_1 boxer_2 : Boxer) (w : world) :
  raised (fst (get_random w)) = true ->
  raised (fst (fight (mkRingModel [boxer_1; boxer_2], w))) = true /\
  fst (after fight (mkRingModel [boxer_1; boxer_2], w)) =
    mkRingModel [boxer_1; boxer_2] /\
  boxers (snd (after fight (mkRingModel [boxer_1; boxer_2], w))) = boxers w /\
  db_calls (snd (after fight (mkRingModel [boxer_1; boxer_2], w))) = db_calls w.
Proof.
  intros Hr; unfold after; rewrite fight_on_two.
  pose proof (get_random_world w) as Hw.
  destruct (get_fighting_skill boxer_1), (get_fighting_skill boxer_2);
    try (repeat split; reflexivity).
  destruct (normalized_delta _ _); [|repeat split; reflexivity].
  destruct (get_random w) as [[x|e] w1]; [discriminate|].
  cbn [snd] in Hw; subst w1; repeat split.
Qed.

Lemma fight_needs_a_random_number_witness :
  fst (fight (full_ring, silent_world [sample_boxer1; sample_boxer2])) =
    Raise (RuntimeError [Lit "Request to random.org timed out."]) /\
  raised (fst (fight (full_ring,
                      silent_world [sample_boxer1; sample_boxer2]))) = true /\
  fst (after fight (full_ring, silent_world [sample_boxer1; sample_boxer2])) =
    full_ring /\
  boxers (snd (after fight
                 (full_ring, silent_world [sample_boxer1; sample_boxer2]))) =
    boxers (silent_world [sample_boxer1; sample_boxer2]) /\
  db_calls (snd (after fight
                   (full_ring, silent_world [sample_boxer1; sample_boxer2]))) =
    db_calls (silent_world [sample_boxer1; sample_boxer2]).
Proof.
  split; [reflexivity|].
  apply (fight_needs_a_random_number sample_boxer1 sample_boxer2
           (silent_world [sample_boxer1; sample_boxer2])).
  reflexivity.
Defined.

(** X11: when [fight] on a full ring returns a name, it is the name of one
    of the two boxers, the winner, whose identity is in the table; every
    row of the table then has one fight more for each of the two boxers
    whose identity it bears and one win more if it bears the winner's, and
    nothing else in the table has changed. *)
Theorem fight_records_the_result (boxer_1 boxer_2 : Boxer) (w w' : world)
    (rm' : RingModel) (n : string) :
  fight (mkRingModel [boxer_1; boxer_2], w) = (Return n, (rm', w')) ->
  exists winner loser : Boxer,
    (winner = boxer_1 /\ loser = boxer_2 \/
     winner = boxer_2 /\ loser = boxer_1) /\
    n = name winner /\
    (exists r, In r (boxers w) /\ row_id r = id winner) /\
    Forall2 (fought winner loser) (boxers w) (boxers w').
Proof.
  intros Hf; destruct (fight_table _ _ _ _ _ _ Hf)
    as (winner & loser & Hwho & Hn & Hin & ->).
  exists winner, loser; repeat split; try assumption.
  apply twice_recorded.
Qed.

Lemma fight_records_the_result_witness :
  exists winner loser : Boxer,
    (winner = sample_boxer1 /\ loser = sample_boxer2 \/
     winner = sample_boxer2 /\ loser = sample_boxer1) /\
    "Boxer1" = name winner /\
    (exists r, In r (boxers (sample_world league)) /\ row_id r = id winner) /\
    Forall2 (fought winner loser)
      (boxers (sample_world league)) (boxers world_after_fight).
Proof.
  apply (fight_records_the_result sample_boxer1 sample_boxer2
           (sample_world league) world_after_fight RingModel_init "Boxer1").
  reflexivity.
Defined.

(** X12: nothing keeps a boxer from entering the ring twice and fighting
    himself: [enter_ring] accepts him a second time, and when [fight]
    returns it returns his name, and his rows have two fights and one
    win more. *)
Theorem fight_against_oneself (boxer : Boxer) (w : world) :
  enter_ring (PyBoxer boxer) (mkRingModel [boxer], w) =
    (Return tt, (mkRingModel [boxer; boxer], w)) /\
  forall n rm' w',
    fight (mkRingModel [boxer; boxer], w) = (Return n, (rm', w')) ->
    n = name boxer /\
    Forall2 (fought boxer boxer) (boxers w) (boxers w').
Proof.
  split; [reflexivity|].
  intros n rm' w' Hf.
  destruct (fight_table _ _ _ _ _ _ Hf)
    as (winner & loser & Hwho & Hn & _ & ->).
  assert (winner = boxer /\ loser = boxer) as [-> ->]
    by (destruct Hwho as [[? ?]|[? ?]]; auto).
  split; [assumption|apply twice_recorded].
Qed.

Lemma fight_against_oneself_witness :
  fst (fight (mkRingModel [sample_boxer1; sample_boxer1],
              sample_world [sample_boxer1])) = Return "Boxer1" /\
  "Boxer1" = name sample_boxer1 /\
  Forall2 (fought sample_boxer1 sample_boxer1)
    (boxers (sample_world [sample_boxer1]))
    (boxers (snd (after fight (mkRingModel [sample_boxer1; sample_boxer1],
                               sample_world [sample_boxer1])))).
Proof.
  split; [reflexivity|].
  apply (proj2 (fight_against_oneself sample_boxer1
                  (sample_world [sample_boxer1]))
           "Boxer1" RingModel_init
           (snd (after fight (mkRingModel [sample_boxer1; sample_boxer1],
                              sample_world [sample_boxer1])))).
  reflexivity.
Defined.

(** *** The order of the two skills does not matter *)

Lemma SFcompare_antisym (a b : spec_float) :
  SFcompare a b = Some Lt -> SFcompare b a = Some Gt.
Proof.
  destruct a as [sa|sa| |sa ma ea], b as [sb|sb| |sb mb eb]; cbn;
    try discriminate;
    try (destruct sa; try discriminate; try reflexivity);
    try (destruct sb; try discriminate; try reflexivity).
  all: change (Pos.compare_cont Eq mb ma) with (Pos.compare mb ma);
    change (Pos.compare_cont Eq ma mb) with (Pos.compare ma mb);
    rewrite (Z.compare_antisym ea eb);
    destruct (ea ?= eb)%Z; cbn; try discriminate; try reflexivity;
    rewrite (Pos.compare_antisym ma mb);
    destruct (ma ?= mb)%positive; cbn; try discriminate; reflexivity.
Qed.

Lemma ltb_asym (x y : float) : (x <? y)%float = true -> (y <? x)%float = false.
Proof.
  rewrite !ltb_spec; unfold SFltb; intros H.
  destruct (SFcompare (Prim2SF x) (Prim2SF y)) as [[]|] eqn:E; try discriminate.
  now rewrite (SFcompare_antisym _ _ E).
Qed.

Lemma binary_round_abs (m : positive) (e : Z) :
  SFabs (binary_round prec emax true m e) =
  SFabs (binary_round prec emax false m e).
Proof.
  unfold binary_round, binary_round_aux.
  destruct (shl_align _ _ _) as [mz ez].
  destruct (shr_fexp prec emax (Z.pos mz) ez loc_Exact) as [mrs' e'].
  destruct (shr_fexp _ _ _ _ _) as [mrs'' e''].
  destruct (shr_m mrs''); try reflexivity.
  destruct (e'' <=? emax - prec)%Z; reflexivity.
Qed.

Lemma binary_normalize_abs (m e : Z) (sz : bool) :
  SFabs (binary_normalize prec emax (- m) e sz) =
  SFabs (binary_normalize prec emax m e sz).
Proof.
  destruct m; cbn [Z.opp binary_normalize]; try reflexivity.
  - apply binary_round_abs.
  - symmetry; apply binary_round_abs.
Qed.

Lemma SFsub_abs (a b : spec_float) :
  SFabs (SFsub prec emax a b) = SFabs (SFsub prec emax b a).
Proof.
  destruct a as [sa|sa| |sa ma ea], b as [sb|sb| |sb mb eb]; cbn [SFsub SFabs];
    try reflexivity;
    try (destruct sa, sb; reflexivity).
  rewrite (Z.min_comm eb ea).
  rewrite <- binary_normalize_abs.
  f_equal; f_equal; lia.
Qed.

Lemma abs_sub_comm (x y : float) : abs (x - y) = abs (y - x).
Proof.
  apply Prim2SF_inj; rewrite !abs_spec, !sub_spec; apply SFsub_abs.
Qed.

(** X13: the delta of two skills, and so the normalized delta, is the same
    whichever boxer entered first.  Hence in one and the same world the
    place in the ring decides: if the two boxers fight in either order and
    both fights return, then either the boxer who entered first wins both
    or the one who entered second wins both. *)
Theorem entry_order_decides_the_winner (boxer_1 boxer_2 : Boxer) (w : world) :
  (forall skill_1 skill_2 : float,
      normalized_delta (libm_pow w) (abs (skill_1 - skill_2)) =
      normalized_delta (libm_pow w) (abs (skill_2 - skill_1))) /\
  (forall n n' s s',
      fight (mkRingModel [boxer_1; boxer_2], w) = (Return n, s) ->
      fight (mkRingModel [boxer_2; boxer_1], w) = (Return n', s') ->
      n = name boxer_1 /\ n' = name boxer_2 \/
      n = name boxer_2 /\ n' = name boxer_1).
Proof.
  split; [intros skill_1 skill_2; now rewrite abs_sub_comm|].
  intros n n' s s'; rewrite !fight_on_two.
  destruct (get_fighting_skill boxer_1) as [skill_1|],
           (get_fighting_skill boxer_2) as [skill_2|]; try discriminate.
  rewrite (abs_sub_comm skill_2 skill_1).
  destruct (normalized_delta _ _) as [p|]; [|discriminate].
  destruct (get_random w) as [[random_number|] w1]; [|discriminate].
  cbv zeta.
  destruct (random_number <? p)%float;
    repeat (step_match; try discriminate);
    intros [= <- _] [= <- _]; auto.
Qed.

Lemma entry_order_decides_the_winner_witness :
  fst (fight (mkRingModel [sample_boxer1; sample_boxer2],
              sample_world [sample_boxer1; sample_boxer2])) = Return "Boxer1" /\
  fst (fight (mkRingModel [sample_boxer2; sample_boxer1],
              sample_world [sample_boxer1; sample_boxer2])) = Return "Boxer2" /\
  ("Boxer1" = name sample_boxer1 /\ "Boxer2" = name sample_boxer2 \/
   "Boxer1" = name sample_boxer2 /\ "Boxer2" = name sample_boxer1).
Proof.
  split; [reflexivity|]; split; [reflexivity|].
  apply (proj2 (entry_order_decides_the_winner sample_boxer1 sample_boxer2
                  (sample_world [sample_boxer1; sample_boxer2]))
           "Boxer1" "Boxer2"
           (snd (fight (mkRingModel [sample_boxer1; sample_boxer2],
                        sample_world [sample_boxer1; sample_boxer2])))
           (snd (fight (mkRingModel [sample_boxer2; sample_boxer1],
                        sample_world [sample_boxer1; sample_boxer2]))));
    reflexivity.
Defined.

(** ** The leaderboard *)

Lemma leaderboard_of_returns (builtin_round : float -> Z -> float)
    (rows : list row) (l : list leaderboard_entry) :
  leaderboard_of builtin_round rows = Return l ->
  Forall2 (entry_of_row builtin_round) rows l.
Proof.
  revert l; induction rows as [|r rows IH]; intros l; cbn [leaderboard_of].
  - intros [= <-]; constructor.
  - destruct (get_weight_class (PyInt (row_weight r))) as [wc|] eqn:Hwc;
      cbn [obind]; [|discriminate].
    change (float_of_int 100) with (Return 100%float); cbn [obind].
    destruct (leaderboard_of builtin_round rows) as [rest|]; cbn [obind];
      [|discriminate].
    intros [= <-]; constructor; [|now apply IH].
    unfold entry_of_row; cbn; repeat split; assumption.
Qed.

Lemma leaderboard_of_admissible (builtin_round : float -> Z -> float)
    (rows : list row) :
  Forall (fun r => 125 <= row_weight r) rows ->
  exists l, leaderboard_of builtin_round rows = Return l.
Proof.
  induction 1 as [|r rows Hr _ [l IH]]; cbn [leaderboard_of]; [eauto|].
  destruct (get_weight_class_total (PyInt (row_weight r)) eq_refl Hr)
    as [wc ->]; cbn [obind].
  change (float_of_int 100) with (Return 100%float); cbn [obind].
  rewrite IH; cbn [obind]; eauto.
Qed.

Lemma leaderboard_of_underweight (builtin_round : float -> Z -> float)
    (rows : list row) (r : row) :
  In r rows -> row_weight r < 125 ->
  exists m, leaderboard_of builtin_round rows = Raise (ValueError m).
Proof.
  intros Hin Hlow; induction rows as [|x rows IH]; [destruct Hin|].
  cbn [leaderboard_of].
  destruct (get_weight_class (PyInt (row_weight x))) as [wc|e] eqn:Hwc;
    cbn [obind].
  - change (float_of_int 100) with (Return 100%float); cbn [obind].
    destruct Hin as [-> | Hin].
    + apply get_weight_class_returns in Hwc as [_ Hwc]; cbn in Hwc; lia.
    + destruct (IH Hin) as [m ->]; cbn [obind]; eauto.
  - revert Hwc; rewrite get_weight_class_int.
    repeat (step_match; try discriminate); intros [= <-]; eauto.
Qed.

Lemma entries_have_fought (builtin_round : float -> Z -> float)
    (rows : list row) (l : list leaderboard_entry) :
  Forall2 (entry_of_row builtin_round) rows l ->
  Forall (fun r => has_fought r = true) rows ->
  Forall (fun e => 0 < entry_fights e /\ 125 <= entry_weight e) l.
Proof.
  induction 1 as [|r e rows l He _ IH]; intros Hf; constructor.
  - destruct He as (_ & _ & Ew & _ & _ & _ & Ef & _ & Hc & _).
    rewrite Ef, Ew; split.
    + inversion Hf as [|? ? Hr]; subst; now apply Z.ltb_lt in Hr.
    + apply (get_weight_class_returns _ _ Hc).
  - apply IH; now inversion Hf.
Qed.

Lemma get_leaderboard_query
    (order_by : (row -> row -> bool) -> list row -> list row)
    (builtin_round : float -> Z -> float) (self : pyobj) (sort_by : string)
    (w : world) :
  sort_by = "wins" \/ sort_by = "win_pct" ->
  get_leaderboard order_by builtin_round self sort_by w =
    match sqlite_raises w (db_calls w) with
    | Some e => (Raise (exn_of_sqlite e), tick_db w)
    | None =>
        match sqlite_raises w (S (db_calls w)) with
        | Some e => (Raise (exn_of_sqlite e), tick_db (tick_db w))
        | None =>
            (leaderboard_of builtin_round
               (order_by (comes_before sort_by)
                         (filter has_fought (boxers w))),
             tick_db (tick_db w))
        end
    end.
Proof.
  intros Hs; unfold get_leaderboard.
  replace (negb (String.eqb sort_by "wins" || String.eqb sort_by "win_pct"))
    with false by (destruct Hs as [-> | ->]; reflexivity).
  run_repository.
  destruct (sqlite_raises w (db_calls w)); [reflexivity|].
  cbn [boxers db_calls sqlite_raises tick_db].
  destruct (sqlite_raises w (S (db_calls w))); reflexivity.
Qed.

Lemma get_leaderboard_sort_by
    (order_by : (row -> row -> bool) -> list row -> list row)
    (builtin_round : float -> Z -> float) (self : pyobj) (sort_by : string)
    (w : world) :
  sort_by <> "wins" -> sort_by <> "win_pct" ->
  get_leaderboard order_by builtin_round self sort_by w =
    (Raise (ValueError [Lit "Invalid sort_by paramater: ";
                        Obj (PyStr sort_by)]), w).
Proof.
  intros Hw Hp; unfold get_leaderboard.
  now rewrite (proj2 (String.eqb_neq _ _) Hw), (proj2 (String.eqb_neq _ _) Hp).
Qed.

Lemma Sorted_Forall2 {A B : Type} (R : A -> A -> Prop) (R' : B -> B -> Prop)
    (rel : A -> B -> Prop) (la : list A) (lb : list B) :
  (forall a1 a2 b1 b2, rel a1 b1 -> rel a2 b2 -> R a1 a2 -> R' b1 b2) ->
  Forall2 rel la lb -> Sorted R la -> Sorted R' lb.
Proof.
  intros Hrel H; induction H as [|a b la lb Hab Hl IH]; intros Hs;
    constructor; inversion Hs as [|? ? Hs' Hhd]; subst.
  - now apply IH.
  - destruct Hl as [|a2 b2 la lb Hab2 _]; constructor.
    inversion Hhd; subst; eapply Hrel; eassumption.
Qed.

Lemma comes_before_asym (sort_by : string) (a b : row) :
  comes_before sort_by a b = true -> comes_before sort_by b a = false.
Proof.
  unfold comes_before; destruct (String.eqb sort_by "win_pct").
  - apply ltb_asym.
  - rewrite Z.ltb_lt, Z.ltb_ge; lia.
Qed.

Lemma place_permutation (before : row -> row -> bool) (x : row) (l : list row) :
  Permutation (place before x l) (x :: l).
Proof.
  induction l as [|y l IH]; cbn [place]; [reflexivity|].
  destruct (before x y); [reflexivity|].
  rewrite IH; apply perm_swap.
Qed.

Lemma sample_order_by_permutation (before : row -> row -> bool) (l : list row) :
  Permutation (sample_order_by before l) l.
Proof.
  induction l as [|x l IH]; cbn; [reflexivity|].
  now rewrite place_permutation, IH.
Qed.

Lemma place_sorted (before : row -> row -> bool) (x : row) (l : list row) :
  (forall a b, before a b = true -> before b a = false) ->
  Sorted (fun a b => before b a = false) l ->
  Sorted (fun a b => before b a = false) (place before x l).
Proof.
  intros Hasym; induction l as [|y l IH]; intros Hs; cbn [place].
  - repeat constructor.
  - destruct (before x y) eqn:Hxy.
    + constructor; [assumption|constructor; now apply Hasym].
    + inversion Hs as [|? ? Hs' Hhd]; subst.
      constructor; [now apply IH|].
      destruct l as [|z l]; cbn [place]; [now constructor|].
      destruct (before x z); constructor; [assumption|].
      now inversion Hhd.
Qed.

Lemma sample_order_by_sorted (before : row -> row -> bool) (l : list row) :
  (forall a b, before a b = true -> before b a = false) ->
  Sorted (fun a b => before b a = false) (sample_order_by before l).
Proof.
  intros Hasym; induction l as [|x l IH]; cbn; [constructor|].
  now apply place_sorted.
Qed.

Section Leaderboard.

Variable order_by : (row -> row -> bool) -> list row -> list row.
Variable builtin_round : float -> Z -> float.

(** What [ORDER BY] promises: the rows selected, each once, and none
    followed by a row that has to come before it. *)
Hypothesis order_by_permutation :
  forall before l, Permutation (order_by before l) l.
Hypothesis order_by_sorted :
  forall before l,
    (forall a b, before a b = true -> before b a = false) ->
    Sorted (fun a b => before b a = false) (order_by before l).

(** X14: [get_leaderboard] never changes the table.  When it returns,
    [sort_by] was "wins" or "win_pct" and the list has one entry for each
    row with at least one fight and for no other row, each entry with
    the columns of its row, the weight class of its weight and the
    rounded percentage of its wins; every entry has fought and weighs at
    least 125.  Another [sort_by] raises [ValueError] without a call to
    the database. *)
Theorem leaderboard_lists_who_fought (self : pyobj) (sort_by : string)
    (w : world) :
  match get_leaderboard order_by builtin_round self sort_by w with
  | (Return l, w') =>
      (sort_by = "wins" \/ sort_by = "win_pct") /\
      boxers w' = boxers w /\
      exists rows,
        Permutation rows (filter has_fought (boxers w)) /\
        Forall2 (entry_of_row builtin_round) rows l /\
        Forall (fun e => 0 < entry_fights e /\ 125 <= entry_weight e) l
  | (Raise e, w') =>
      boxers w' = boxers w /\
      (sort_by <> "wins" -> sort_by <> "win_pct" ->
       e = ValueError [Lit "Invalid sort_by paramater: ";
                       Obj (PyStr sort_by)] /\ w' = w)
  end.
Proof.
  destruct (String.eqb_spec sort_by "wins") as [Hw|Hw];
    [|destruct (String.eqb_spec sort_by "win_pct") as [Hp|Hp]].
  3: { rewrite get_leaderboard_sort_by by assumption; auto. }
  all: rewrite get_leaderboard_query by auto.
  all: destruct (sqlite_raises w (db_calls w));
    [split; [reflexivity|intros; subst; contradiction]|].
  all: destruct (sqlite_raises w (S (db_calls w)));
    [split; [reflexivity|intros; subst; contradiction]|].
  all: destruct (leaderboard_of _ _) as [l|e] eqn:Hl;
    [|split; [reflexivity|intros; subst; contradiction]].
  all: split; [auto|]; split; [reflexivity|].
  all: apply leaderboard_of_returns in Hl.
  all: eexists; split; [apply order_by_permutation|]; split; [exact Hl|].
  all: apply (entries_have_fought _ _ _ Hl).
  all: apply Forall_forall; intros r Hin.
  all: apply (Permutation_in _ (order_by_permutation _ _)) in Hin.
  all: now apply filter_In in Hin.
Qed.

(** X15: the list [get_leaderboard] returns is in the order asked for:
    by "wins", no entry has fewer wins than an entry after it; by
    "win_pct", no entry is followed by one whose quotient of wins by
    fights is greater. *)
Theorem leaderboard_in_descending_order (self : pyobj) (sort_by : string)
    (w w' : world) (l : list leaderboard_entry) :
  get_leaderboard order_by builtin_round self sort_by w = (Return l, w') ->
  (sort_by = "wins" ->
   StronglySorted (fun e1 e2 => entry_wins e2 <= entry_wins e1) l) /\
  (sort_by = "win_pct" ->
   Sorted (fun e1 e2 => (entry_ratio e1 <? entry_ratio e2)%float = false) l).
Proof.
  intros Hl.
  assert (Hs : sort_by = "wins" \/ sort_by = "win_pct").
  { destruct (String.eqb_spec sort_by "wins") as [Hw|Hw]; [auto|].
    destruct (String.eqb_spec sort_by "win_pct") as [Hp|Hp]; [auto|].
    rewrite get_leaderboard_sort_by in Hl by assumption; discriminate. }
  rewrite (get_leaderboard_query _ _ _ _ _ Hs) in Hl.
  destruct (sqlite_raises w (db_calls w)); [discriminate|].
  destruct (sqlite_raises w (S (db_calls w))); [discriminate|].
  injection Hl as Hl _; apply leaderboard_of_returns in Hl.
  pose proof (order_by_sorted (comes_before sort_by)
                (filter has_fought (boxers w))
                (comes_before_asym sort_by)) as Hsorted.
  split; intros ->.
  - apply Sorted_StronglySorted; [intros x y z; lia|].
    revert Hl Hsorted; apply Sorted_Forall2.
    intros r1 r2 e1 e2 H1 H2; unfold comes_before;
      cbn [String.eqb Ascii.eqb Bool.eqb].
    destruct H1 as (_ & _ & _ & _ & _ & _ & _ & -> & _).
    destruct H2 as (_ & _ & _ & _ & _ & _ & _ & -> & _).
    rewrite Z.ltb_ge; lia.
  - revert Hl Hsorted; apply Sorted_Forall2.
    intros r1 r2 e1 e2 H1 H2; unfold comes_before, entry_ratio, win_pct.
    cbn [String.eqb Ascii.eqb Bool.eqb].
    destruct H1 as (_ & _ & _ & _ & _ & _ & -> & -> & _).
    destruct H2 as (_ & _ & _ & _ & _ & _ & -> & -> & _).
    auto.
Qed.

(** X16: with "wins" or "win_pct" and a database that does not fail,
    [get_leaderboard] returns when every row with a fight weighs at
    least 125, and raises the [ValueError] of [get_weight_class] as soon
    as one such row weighs less. *)
Theorem leaderboard_needs_valid_weights (self : pyobj) (sort_by : string)
    (w : world) :
  sort_by = "wins" \/ sort_by = "win_pct" ->
  sqlite_raises w (db_calls w) = None ->
  sqlite_raises w (S (db_calls w)) = None ->
  ((forall r, In r (boxers w) -> has_fought r = true -> 125 <= row_weight r) ->
   exists l,
     get_leaderboard order_by builtin_round self sort_by w =
       (Return l, tick_db (tick_db w))) /\
  (forall r, In r (boxers w) -> has_fought r = true -> row_weight r < 125 ->
   exists m,
     get_leaderboard order_by builtin_round self sort_by w =
       (Raise (ValueError m), tick_db (tick_db w))).
Proof.
  intros Hs H1 H2; rewrite (get_leaderboard_query _ _ _ _ _ Hs), H1, H2.
  split.
  - intros Hok.
    destruct (leaderboard_of_admissible builtin_round
                (order_by (comes_before sort_by)
                          (filter has_fought (boxers w)))) as [l ->];
      [|eauto].
    apply Forall_forall; intros r Hin.
    apply (Permutation_in _ (order_by_permutation _ _)) in Hin.
    apply filter_In in Hin as [Hin Hf]; auto.
  - intros r Hin Hf Hlow.
    destruct (leaderboard_of_underweight builtin_round
                (order_by (comes_before sort_by)
                          (filter has_fought (boxers w))) r) as [m ->];
      [|assumption|eauto].
    apply (Permutation_in _ (Permutation_sym (order_by_permutation _ _))).
    now apply filter_In.
Qed.

End Leaderboard.

Lemma leaderboard_lists_who_fought_witness :
  map entry_name sample_leaderboard = ["Boxer1"; "Boxer2"] /\
  match get_leaderboard sample_order_by no_rounding PyNone "wins"
                        world_after_fight with
  | (Return l, w') =>
      ("wins" = "wins" \/ "wins" = "win_pct") /\
      boxers w' = boxers world_after_fight /\
      exists rows,
        Permutation rows (filter has_fought (boxers world_after_fight)) /\
        Forall2 (entry_of_row no_rounding) rows l /\
        Forall (fun e => 0 < entry_fights e /\ 125 <= entry_weight e) l
  | (Raise e, w') =>
      boxers w' = boxers world_after_fight /\
      ("wins" <> "wins" -> "wins" <> "win_pct" ->
       e = ValueError [Lit "Invalid sort_by paramater: "; Obj (PyStr "wins")]
       /\ w' = world_after_fight)
  end.
Proof.
  split; [reflexivity|].
  apply (leaderboard_lists_who_fought sample_order_by no_rounding
           sample_order_by_permutation PyNone "wins" world_after_fight).
Defined.

Lemma leaderboard_in_descending_order_witness :
  map entry_wins sample_leaderboard = [1; 0] /\
  StronglySorted (fun e1 e2 => entry_wins e2 <= entry_wins e1)
                 sample_leaderboard.
Proof.
  split; [reflexivity|].
  apply (proj1 (leaderboard_in_descending_order sample_order_by no_rounding
                  sample_order_by_sorted PyNone "wins" world_after_fight
                  (tick_db (tick_db world_after_fight)) sample_leaderboard
                  eq_refl)).
  reflexivity.
Defined.

Lemma leaderboard_needs_valid_weights_witness :
  (exists l,
      get_leaderboard sample_order_by no_rounding PyNone "win_pct"
                      world_after_fight =
        (Return l, tick_db (tick_db world_after_fight))) /\
  (exists m,
      get_leaderboard sample_order_by no_rounding PyNone "win_pct"
                      underweight_world =
        (Raise (ValueError m), tick_db (tick_db underweight_world))).
Proof.
  split.
  - apply (proj1 (leaderboard_needs_valid_weights sample_order_by no_rounding
                    sample_order_by_permutation PyNone "win_pct"
                    world_after_fight (or_intror eq_refl) eq_refl eq_refl)).
    intros r [<-|[<-|[<-|[]]]] _; cbn; lia.
  - apply (proj2 (leaderboard_needs_valid_weights sample_order_by no_rounding
                    sample_order_by_permutation PyNone "win_pct"
                    underweight_world (or_intror eq_refl) eq_refl eq_refl)
             (mkRow 9 "Tiny" 100 60 60 20 1 0));
      [left; reflexivity | reflexivity | cbn; lia].
Defined.

(** ** Looking a boxer up *)


